(** * JinaRerankerV3.predict: a shallow embedding and its properties

    Source: backend/open_webui/retrieval/models/jina_reranker_v3.py

    [predict] adapts a listwise reranking model to a pairwise-looking API.
    The embedding keeps what the Python code has:
    - Python list objects live in a store ([gmap loc pyobj]); [sentences],
      [documents] and [scores] are references into it, and
      [scores[idx] = score] is an in-place update of the store;
    - exceptions are values of [py_exception]; [except Exception] catches
      exactly the instances of [Exception];
    - the external model is a capability [rerank] with its own state;
    - logging and model calls are recorded in a chronological trace; the
      text of a log message is built before the logger is called, and
      building it can raise. *)

From Stdlib Require Import Floats.
From stdpp Require Import gmap strings list fin_maps.

Set Warnings "-register-all,-inexact-float".
Open Scope string_scope.
Open Scope Z_scope.

(** ** Python values *)

(** The values the model hands back are duck-typed.  We model the JSON-like
    fragment of Python objects: [None], [bool], [int], [float], [str],
    [list], [tuple] and [dict] with [str] keys (insertion-ordered). *)
Inductive pyval : Type :=
  | VNone
  | VBool (b : bool)
  | VInt (n : Z)
  | VFloat (f : float)
  | VStr (s : string)
  | VList (l : list pyval)
  | VTuple (l : list pyval)
  | VDict (d : list (string * pyval)).

(** ** Exceptions *)

(** The classes that matter here.  [KeyboardInterrupt], [SystemExit] and
    [GeneratorExit] derive from [BaseException] only. *)
Inductive py_exception : Type :=
  | KeyError (key : string)
  | TypeError (msg : string)
  | IndexError (msg : string)
  | ValueError (msg : string)
  | RuntimeError (msg : string)
  | MemoryError
  | KeyboardInterrupt
  | SystemExit (code : Z)
  | GeneratorExit.

(** [isinstance(e, Exception)] *)
Definition isinstance_Exception (e : py_exception) : bool :=
  match e with
  | KeyboardInterrupt | SystemExit _ | GeneratorExit => false
  | _ => true
  end.

(** The result of evaluating a Python expression or statement. *)
Inductive outcome (A : Type) : Type :=
  | Ret (a : A)
  | Raise (e : py_exception).
Arguments Ret {A} a.
Arguments Raise {A} e.

(** ** Pure operations on values *)

Fixpoint dict_get (d : list (string * pyval)) (k : string) : option pyval :=
  match d with
  | [] => None
  | (k', v) :: d' => if String.eqb k' k then Some v else dict_get d' k
  end.

(** [v[k]] for a [str] key [k]. *)
Definition py_getitem_str (v : pyval) (k : string) : outcome pyval :=
  match v with
  | VDict d =>
      match dict_get d k with
      | Some x => Ret x
      | None => Raise (KeyError k)
      end
  | VList _ => Raise (TypeError "list indices must be integers or slices, not str")
  | VTuple _ => Raise (TypeError "tuple indices must be integers or slices, not str")
  | VStr _ => Raise (TypeError "string indices must be integers, not 'str'")
  | VNone | VBool _ | VInt _ | VFloat _ =>
      Raise (TypeError "object is not subscriptable")
  end.

Fixpoint chars_of (s : string) : list pyval :=
  match s with
  | EmptyString => []
  | String c s' => VStr (String c EmptyString) :: chars_of s'
  end.

(** The items [for x in v] runs over. *)
Definition py_iter (v : pyval) : outcome (list pyval) :=
  match v with
  | VList l | VTuple l => Ret l
  | VDict d => Ret (map (fun kv => VStr (fst kv)) d)
  | VStr s => Ret (chars_of s)
  | VNone | VBool _ | VInt _ | VFloat _ =>
      Raise (TypeError "object is not iterable")
  end.

(** Exact comparison of a float with an integer, as Python does it
    ([None] when the float is a NaN: every ordered comparison is false). *)
Definition float_compare_Z (f : float) (z : Z) : option comparison :=
  match Prim2SF f with
  | S754_nan => None
  | S754_zero _ => Some (0 ?= z)
  | S754_infinity true => Some Lt
  | S754_infinity false => Some Gt
  | S754_finite s m e =>
      let sm := if s then Z.neg m else Z.pos m in
      if 0 <=? e then Some (sm * 2 ^ e ?= z)
      else Some (sm ?= z * 2 ^ (- e))
  end.

(** [a <= v] for an [int] [a]. *)
Definition py_int_le (a : Z) (v : pyval) : outcome bool :=
  match v with
  | VInt n => Ret (a <=? n)
  | VBool b => Ret (a <=? Z.b2z b)
  | VFloat f =>
      Ret (match float_compare_Z f a with
           | Some Gt | Some Eq => true
           | _ => false
           end)
  | _ => Raise (TypeError "'<=' not supported between these instances")
  end.

(** [v < b] for an [int] [b]. *)
Definition py_lt_int (v : pyval) (b : Z) : outcome bool :=
  match v with
  | VInt n => Ret (n <? b)
  | VBool x => Ret (Z.b2z x <? b)
  | VFloat f =>
      Ret (match float_compare_Z f b with
           | Some Lt => true
           | _ => false
           end)
  | _ => Raise (TypeError "'<' not supported between these instances")
  end.

(** [operator.index(v)]: what a list subscript accepts. *)
Definition py_index (v : pyval) : outcome Z :=
  match v with
  | VInt n => Ret n
  | VBool b => Ret (Z.b2z b)
  | _ => Raise (TypeError "list indices must be integers or slices")
  end.

(** ** Formatting values for a log message *)

(** [sys.get_int_max_str_digits()]: the interpreter's default limit on the
    number of decimal digits of an [int] that is converted to text. *)
Definition int_max_str_digits : Z := 4300.

(** [str(n)] succeeds: [n] has at most [int_max_str_digits] digits. *)
Definition py_str_int_ok (n : Z) : bool :=
  Z.abs n <? 10 ^ int_max_str_digits.

(** An f-string hole [{v}] can be filled: no [int] inside [v] is beyond the
    digit limit.  ([None], [bool], [float] and [str] always format; a
    container formats its elements in order.) *)
Fixpoint py_format_ok (v : pyval) : bool :=
  match v with
  | VNone | VBool _ | VFloat _ | VStr _ => true
  | VInt n => py_str_int_ok n
  | VList l | VTuple l => forallb py_format_ok l
  | VDict d => forallb (fun kv => py_format_ok (snd kv)) d
  end.

(** Filling the hole [{v}] of an f-string: the text is not modelled, only
    whether building it raises. *)
Definition py_format (v : pyval) : outcome unit :=
  if py_format_ok v then Ret tt
  else Raise (ValueError "Exceeds the limit (4300 digits) for integer string conversion").

(** ** Slicing text *)

(** A [string] holds the UTF-8 encoding of a Python [str]; a code point
    starts at every byte that is not a continuation byte ([10xxxxxx]). *)
Definition utf8_continuation (c : Ascii.ascii) : bool :=
  match c with
  | Ascii.Ascii _ _ _ _ _ _ b6 b7 => b7 && negb b6
  end.

(** [s[:n]]: the first [n] code points of [s]. *)
Fixpoint take_code_points (n : nat) (s : string) : string :=
  match s with
  | EmptyString => EmptyString
  | String c s' =>
      if utf8_continuation c then String c (take_code_points n s')
      else match n with
           | O => EmptyString
           | S n' => String c (take_code_points n' s')
           end
  end.

(** [len(s)]: the number of code points of [s]. *)
Fixpoint code_points (s : string) : nat :=
  match s with
  | EmptyString => O
  | String c s' =>
      if utf8_continuation c then code_points s' else S (code_points s')
  end.

(** ** The store, the trace and the world *)

Abbreviation loc := positive.

(** A Python list object.  The request is a [List[Tuple[str, str]]], the
    document batch a list of [str], the score vector a list of values. *)
Inductive pyobj : Type :=
  | PairList (l : list (string * string))
  | StrList (l : list string)
  | ValList (l : list pyval).

Inductive log_level : Type := DEBUG | INFO | WARNING | ERROR.

(** What a log record says (the f-string with its holes filled). *)
Inductive log_message : Type :=
  | MsgEmptySentences
  | MsgReranking (n : Z)
  | MsgQuery (prefix : string)
  | MsgInvalidIndex (idx : pyval)
  | MsgScores (scores : list pyval)
  | MsgError (e : py_exception).

Inductive event : Type :=
  | EvLog (lvl : log_level) (msg : log_message)
  | EvRerank (query : string) (documents : list string)
             (return_embeddings : bool).

(** The external collaborator: [self.model.rerank(query=, documents=,
    return_embeddings=)].  It owns a state of type [M] and returns a value
    or raises.  By its contract it reads the document batch: it is given
    the contents of the list and does not modify the list object. *)
Class RankingModel (M : Type) : Type :=
  rerank : M -> string -> list string -> bool -> outcome pyval * M.

Record world (M : Type) : Type := World {
  heap : gmap loc pyobj;
  model : M;
  trace : list event
}.
Arguments World {M} heap model trace.
Arguments heap {M} w.
Arguments model {M} w.
Arguments trace {M} w.

(** ** The monad of Python statements: state and exceptions *)

Definition Py (M A : Type) : Type := world M -> outcome A * world M.

Definition py_ret {M A} (a : A) : Py M A := fun w => (Ret a, w).

Definition py_bind {M A B} (m : Py M A) (k : A -> Py M B) : Py M B :=
  fun w =>
    match m w with
    | (Ret a, w') => k a w'
    | (Raise e, w') => (Raise e, w')
    end.

Definition py_raise {M A} (e : py_exception) : Py M A := fun w => (Raise e, w).

(** Lift the outcome of a pure operation. *)
Definition lift {M A} (o : outcome A) : Py M A := fun w => (o, w).

Declare Scope py_scope.
Delimit Scope py_scope with py.
Notation "x <- m ;; k" := (py_bind m (fun x => k))
  (at level 100, m at next level, right associativity) : py_scope.
Notation "m ;;; k" := (py_bind m (fun _ => k))
  (at level 100, right associativity) : py_scope.
Open Scope py_scope.

(** [try: body / except Exception as e: handler e] *)
Definition try_except_Exception {M A}
    (body : Py M A) (handler : py_exception -> Py M A) : Py M A :=
  fun w =>
    match body w with
    | (Ret a, w') => (Ret a, w')
    | (Raise e, w') =>
        if isinstance_Exception e then handler e w' else (Raise e, w')
    end.

(** [for x in xs: body x] *)
Fixpoint for_each {M A} (xs : list A) (body : A -> Py M unit) : Py M unit :=
  match xs with
  | [] => py_ret tt
  | x :: xs' => body x ;;; for_each xs' body
  end.

(** ** Primitive statements *)

Section Primitives.
Context {M : Type} `{RankingModel M}.

Definition log (lvl : log_level) (msg : log_message) : Py M unit :=
  fun w => (Ret tt, World (heap w) (model w) (trace w ++ [EvLog lvl msg])).

(** Building the text of a message.  The holes that can fail are the index
    of an invalid-index warning and the score list of the final debug
    record; a document count is a list length, a query prefix is text and
    an exception of [py_exception] prints its arguments. *)
Definition format_message (msg : log_message) : outcome unit :=
  match msg with
  | MsgInvalidIndex idx => py_format idx
  | MsgScores scores => py_format (VList scores)
  | MsgEmptySentences | MsgReranking _ | MsgQuery _ | MsgError _ => Ret tt
  end.

(** [log.<level>(f"...")]: the f-string is built first, then handed to the
    logger; when building it raises, nothing is logged. *)
Definition log_f (lvl : log_level) (msg : log_message) : Py M unit :=
  lift (format_message msg) ;;; log lvl msg.

(** A new list object at an unused address. *)
Definition alloc (o : pyobj) : Py M loc :=
  fun w =>
    let l := fresh (dom (heap w)) in
    (Ret l, World (<[l := o]> (heap w)) (model w) (trace w)).

Definition deref (l : loc) : Py M pyobj :=
  fun w =>
    match heap w !! l with
    | Some o => (Ret o, w)
    | None => (Raise (RuntimeError "dangling reference"), w)
    end.

(** [len(l)] *)
Definition py_len (l : loc) : Py M Z :=
  o <- deref l ;;
  py_ret (match o with
          | PairList xs => Z.of_nat (length xs)
          | StrList xs => Z.of_nat (length xs)
          | ValList xs => Z.of_nat (length xs)
          end).

(** [not l] for a list: true when it is empty. *)
Definition py_not (l : loc) : Py M bool :=
  n <- py_len l ;; py_ret (n =? 0).

(** [sentences[0][0]] *)
Definition first_query (sentences : loc) : Py M string :=
  o <- deref sentences ;;
  match o with
  | PairList ((q, _) :: _) => py_ret q
  | PairList [] => py_raise (IndexError "list index out of range")
  | _ => py_raise (TypeError "not a list of pairs")
  end.

(** [[doc for _, doc in sentences]]: a new list object. *)
Definition documents_of (sentences : loc) : Py M loc :=
  o <- deref sentences ;;
  match o with
  | PairList ps => alloc (StrList (map snd ps))
  | _ => py_raise (TypeError "not a list of pairs")
  end.

(** [[0.0] * n]: a new list object. *)
Definition zeros (n : Z) : Py M loc :=
  alloc (ValList (replicate (Z.to_nat n) (VFloat 0%float))).

(** [l[idx] = v] on a list object, with Python's index rules: negative
    indices count from the end, anything else out of range raises. *)
Definition list_setitem (l : loc) (idx v : pyval) : Py M unit :=
  i <- lift (py_index idx) ;;
  o <- deref l ;;
  match o with
  | ValList xs =>
      let n := Z.of_nat (length xs) in
      let j := if i <? 0 then i + n else i in
      if (0 <=? j) && (j <? n) then
        fun w => (Ret tt, World (<[l := ValList (<[Z.to_nat j := v]> xs)]> (heap w))
                                (model w) (trace w))
      else py_raise (IndexError "list assignment index out of range")
  | _ => py_raise (TypeError "object does not support item assignment")
  end.

(** [self.model.rerank(query=q, documents=d, return_embeddings=b)] *)
Definition call_rerank (q : string) (d : loc) (b : bool) : Py M pyval :=
  o <- deref d ;;
  match o with
  | StrList docs =>
      fun w =>
        let '(r, m') := rerank (model w) q docs b in
        (r, World (heap w) m' (trace w ++ [EvRerank q docs b]))
  | _ => py_raise (TypeError "documents is not a list of str")
  end.

(** [query[:100]] *)
Definition prefix100 (q : string) : string := take_code_points 100 q.

(** ** predict *)

(** One iteration of the reconciliation loop. *)
Definition reconcile_step (scores : loc) (num_docs : Z) (result : pyval)
    : Py M unit :=
  idx <- lift (py_getitem_str result "index") ;;
  score <- lift (py_getitem_str result "relevance_score") ;;
  lo <- lift (py_int_le 0 idx) ;;
  in_range <- (if lo then lift (py_lt_int idx num_docs) else py_ret false) ;;
  if in_range then list_setitem scores idx score
  else log_f WARNING (MsgInvalidIndex idx).

(** Lines 85-97: build the score vector in the caller's document order. *)
Definition reconcile (documents : loc) (results : pyval)
    : Py M (option loc) :=
  num_docs <- py_len documents ;;
  scores <- zeros num_docs ;;
  container <- lift (py_getitem_str results "results") ;;
  items <- lift (py_iter container) ;;
  for_each items (reconcile_step scores num_docs) ;;;
  o <- deref scores ;;
  log_f DEBUG (MsgScores (match o with ValList xs => xs | _ => [] end)) ;;;
  py_ret (Some scores).

(** The body of the [try] block (lines 65-97). *)
Definition predict_body (sentences : loc) : Py M (option loc) :=
  query <- first_query sentences ;;
  documents <- documents_of sentences ;;
  n <- py_len documents ;;
  log_f DEBUG (MsgReranking n) ;;;
  log_f DEBUG (MsgQuery (prefix100 query)) ;;;
  results <- call_rerank query documents false ;;
  reconcile documents results.

Definition predict (sentences : loc) : Py M (option loc) :=
  empty <- py_not sentences ;;
  if empty then
    log WARNING MsgEmptySentences ;;;
    py_ret None
  else
    try_except_Exception (predict_body sentences)
      (fun e => log_f ERROR (MsgError e) ;;; py_ret None).

End Primitives.

(** ** Notions used to state the properties *)

(** The model invocations recorded in a trace, oldest first. *)
Definition rerank_calls (t : list event) : list (string * list string * bool) :=
  omap (fun ev => match ev with
                  | EvRerank q d b => Some (q, d, b)
                  | EvLog _ _ => None
                  end) t.

(** The warnings about invalid indices recorded in a trace. *)
Definition invalid_index_warnings (t : list event) : list pyval :=
  omap (fun ev => match ev with
                  | EvLog WARNING (MsgInvalidIndex idx) => Some idx
                  | _ => None
                  end) t.

(** [item] is a result entry with integer index [e.1] and score [e.2]
    (other keys may be present). *)
Definition entry_of (item : pyval) (e : Z * pyval) : Prop :=
  py_getitem_str item "index" = Ret (VInt e.1) /\
  py_getitem_str item "relevance_score" = Ret e.2.

(** The value returned by the model is a result structure whose
    ['results'] collection lists, in iteration order, the entries [es]. *)
Definition result_set (results : pyval) (es : list (Z * pyval)) : Prop :=
  exists container items,
    py_getitem_str results "results" = Ret container /\
    py_iter container = Ret items /\
    Forall2 entry_of items es.

Definition in_range (n : Z) (e : Z * pyval) : bool :=
  (0 <=? e.1) && (e.1 <? n).

(** The score of the last entry of [es] whose index is [i], if any. *)
Fixpoint last_reported (es : list (Z * pyval)) (i : Z) : option pyval :=
  match es with
  | [] => None
  | (j, s) :: es' =>
      match last_reported es' i with
      | Some s' => Some s'
      | None => if j =? i then Some s else None
      end
  end.

(** A value whose text can always be built, alone or inside a list:
    [None], a [bool], a [float], a [str], or an [int] within the digit
    limit. *)
Definition plain_value (v : pyval) : bool :=
  match v with
  | VNone | VBool _ | VFloat _ | VStr _ => true
  | VInt n => py_str_int_ok n
  | VList _ | VTuple _ | VDict _ => false
  end.

(** The log messages an entry leads to can be built: an out-of-range index
    (it is printed in a warning) is within the digit limit, and an in-range
    score (it is printed with the vector) is a plain value. *)
Definition loggable (n : Z) (e : Z * pyval) : bool :=
  if in_range n e then plain_value e.2 else py_str_int_ok e.1.

(** What one well-formed entry does to the score vector. *)
Definition write_entry (n : Z) (xs : list pyval) (e : Z * pyval) : list pyval :=
  if in_range n e then <[Z.to_nat e.1 := e.2]> xs else xs.

(** The all-zero score vector, [[0.0] * n]. *)
Definition zero_scores (n : nat) : list pyval := replicate n (VFloat 0%float).

(** The first pair's query of a request ([""] stands in when it is empty). *)
Definition query_of (req : list (string * string)) : string :=
  match req with
  | [] => ""
  | (q, _) :: _ => q
  end.

(** ** Example models, answers and requests *)

(** A result entry and a result structure as the model builds them. *)
Definition entry (i : Z) (s : float) : pyval :=
  VDict [("index", VInt i); ("relevance_score", VFloat s)].

Definition answer (entries : list pyval) : pyval :=
  VDict [("results", VList entries)].

(** A stateless model that returns [v] on every call. *)
Definition constant_model (v : pyval) : RankingModel unit :=
  fun m _ _ _ => (Ret v, m).

(** A stateless model that raises [e] on every call. *)
Definition failing_model (e : py_exception) : RankingModel unit :=
  fun m _ _ _ => (Raise e, m).

(** A store holding just the request, at address 1. *)
Definition world_of (req : list (string * string)) : world unit :=
  World {[ 1%positive := PairList req ]} tt [].

Definition rust_request : list (string * string) :=
  [("what is rust?", "doc A"); ("what is rust?", "doc B")].
(** The same documents and first query, another query in the second pair. *)
Definition rust_request_skewed : list (string * string) :=
  [("what is rust?", "doc A"); ("what is go?", "doc B")].
Definition rust_entries : list (Z * pyval) :=
  [(1, VFloat 0.9%float); (0, VFloat 0.2%float)].
Definition rust_answer : pyval := answer [entry 1 0.9%float; entry 0 0.2%float].

Definition abc_request : list (string * string) :=
  [("q", "A"); ("q", "B"); ("q", "C")].
Definition stray_entries : list (Z * pyval) := [(5, VFloat 0.99%float)].
Definition stray_answer : pyval := answer [entry 5 0.99%float].

(** An answer with an out-of-range entry, a duplicate and a gap. *)
Definition mixed_entries : list (Z * pyval) :=
  [(0, VFloat 0.5%float); (7, VFloat 0.25%float);
   (0, VFloat 0.75%float); (-1, VFloat 0.125%float)].
Definition mixed_answer : pyval :=
  answer [entry 0 0.5%float; entry 7 0.25%float;
          entry 0 0.75%float; entry (-1) 0.125%float].

(** An integer of 4301 digits: its text cannot be built. *)
Definition huge_index : Z := 10 ^ 4300.


(** One in-range entry and one entry with a huge index. *)
Definition one_and_huge_entries : list (Z * pyval) :=
  [(0, VFloat 0.5%float); (huge_index, VFloat 0.25%float)].
Definition one_and_huge_answer : pyval :=
  answer [entry 0 0.5%float; entry huge_index 0.25%float].



(** ** The constructor *)

(** What [__init__] needs from outside: the import of [AutoModel], its
    [from_pretrained(model_path, dtype=, trust_remote_code=)] over an
    environment [E] (files, caches, network), and the loaded model's
    [eval()]. *)
Class ModelLoader (E M : Type) : Type := {
  import_AutoModel : E -> outcome unit * E;
  from_pretrained : E -> string -> string -> bool -> outcome M * E;
  model_eval : M -> outcome unit * M
}.

Inductive init_message : Type :=
  | MsgLoading (model_path : string)
  | MsgLoaded
  | MsgLoadFailed (e : py_exception).

(** What the constructor does, in order. *)
Inductive init_event : Type :=
  | IvLog (lvl : log_level) (msg : init_message)
  | IvImport
  | IvFromPretrained (model_path dtype : string) (trust_remote_code : bool)
  | IvEval.

Section Constructor.
Context {E M : Type} `{ModelLoader E M}.

(** The body of the [try] block of [__init__] (lines 29-37), started with
    the records [t] made so far.  It ends with the handle stored in
    [self.model], or raises. *)
Definition init_body (model_path : string) (env : E) (t : list init_event)
    : outcome M * E * list init_event :=
  match import_AutoModel env with
  | (Raise e, env1) => (Raise e, env1, (t ++ [IvImport])%list)
  | (Ret _, env1) =>
      let t1 := (t ++ [IvImport; IvFromPretrained model_path "auto" true])%list in
      match from_pretrained env1 model_path "auto" true with
      | (Raise e, env2) => (Raise e, env2, t1)
      | (Ret m, env2) =>
          match model_eval m with
          | (Raise e, _) => (Raise e, env2, (t1 ++ [IvEval])%list)
          | (Ret _, m') => (Ret m', env2, (t1 ++ [IvEval; IvLog INFO MsgLoaded])%list)
          end
      end
  end.

(** [JinaRerankerV3.__init__] (lines 12-40): log, load, and on an
    [Exception] log the failure and raise it again. *)
Definition __init__ (model_path : string) (env : E)
    : outcome M * E * list init_event :=
  match init_body model_path env [IvLog INFO (MsgLoading model_path)] with
  | (Ret m, env', t) => (Ret m, env', t)
  | (Raise e, env', t) =>
      if isinstance_Exception e
      then (Raise e, env', (t ++ [IvLog ERROR (MsgLoadFailed e)])%list)
      else (Raise e, env', t)
  end.

End Constructor.

(** The [from_pretrained] calls recorded by the constructor. *)
Definition load_calls (t : list init_event) : list (string * string * bool) :=
  omap (fun ev => match ev with
                  | IvFromPretrained p d b => Some (p, d, b)
                  | _ => None
                  end) t.

(** The error records of the constructor. *)
Definition load_errors (t : list init_event) : list py_exception :=
  omap (fun ev => match ev with
                  | IvLog ERROR (MsgLoadFailed e) => Some e
                  | _ => None
                  end) t.

(** Example loaders over a trivial environment; the model handle is a
    number tagging the state of the model. *)
Definition good_loader : ModelLoader unit nat := {|
  import_AutoModel := fun env => (Ret tt, env);
  from_pretrained := fun env _ _ _ => (Ret 0%nat, env);
  model_eval := fun m => (Ret tt, S m)
|}.

(** [from_pretrained] fails: the model is missing. *)
Definition missing_loader (e : py_exception) : ModelLoader unit nat := {|
  import_AutoModel := fun env => (Ret tt, env);
  from_pretrained := fun env _ _ _ => (Raise e, env);
  model_eval := fun m => (Ret tt, S m)
|}.

(** An answer whose second entry has no score. *)
Definition scoreless_entry : pyval := VDict [("index", VInt 1)].
Definition scoreless_answer : pyval :=
  answer [entry 0 0.5%float; scoreless_entry; entry 2 0.25%float].

(** An answer whose only entry has its index written as the float [1.0]. *)
Definition float_index_entry : pyval :=
  VDict [("index", VFloat 1%float); ("relevance_score", VFloat 0.5%float)].
Definition float_index_answer : pyval := answer [float_index_entry].

(** * Properties *)

(** ** Running the monad *)

Ltac py_unfold :=
  unfold py_len, log_f;
  unfold py_bind, py_ret, py_raise, lift, log, deref, alloc;
  simpl.

Section Run.
Context {M : Type} `{RankingModel M}.

Lemma for_each_cons {A} (x : A) (xs : list A) (body : A -> Py M unit) w :
  for_each (x :: xs) body w =
  match body x w with
  | (Ret _, w') => for_each xs body w'
  | (Raise e, w') => (Raise e, w')
  end.
Proof. reflexivity. Qed.

(** One iteration on a well-formed entry: the store changes at [scores]
    only, by [write_entry]; an out-of-range index whose text can be built
    leaves a warning. *)
Lemma reconcile_step_entry lsc item e xs h (m : M) t :
  entry_of item e ->
  (in_range (Z.of_nat (length xs)) e = false -> py_str_int_ok e.1 = true) ->
  reconcile_step lsc (Z.of_nat (length xs)) item
    (World (<[lsc := ValList xs]> h) m t) =
  (Ret tt,
   World (<[lsc := ValList (write_entry (Z.of_nat (length xs)) xs e)]> h) m
         (t ++ if in_range (Z.of_nat (length xs)) e then []
               else [EvLog WARNING (MsgInvalidIndex (VInt e.1))])).
Proof.
  intros [Hi Hs] Hok. destruct e as [i s]; simpl in *.
  unfold reconcile_step, write_entry, in_range in *. py_unfold.
  rewrite Hi, Hs. simpl. unfold py_format. simpl.
  destruct (0 <=? i) eqn:Hlo; simpl in *.
  - destruct (i <? Z.of_nat (length xs)) eqn:Hhi; simpl.
    + unfold list_setitem. py_unfold.
      rewrite lookup_insert_eq.
      assert ((i <? 0) = false) as -> by lia.
      rewrite Hlo, Hhi. simpl.
      by rewrite insert_insert_eq, app_nil_r.
    + by rewrite Hok by (by rewrite Hlo).
  - by rewrite Hok by (by rewrite Hlo).
Qed.

(** The loop on well-formed entries folds [write_entry]. *)
Lemma for_each_entries lsc items es n xs h (m : M) t :
  Z.of_nat (length xs) = n ->
  Forall2 entry_of items es ->
  Forall (fun e => in_range n e = false -> py_str_int_ok e.1 = true) es ->
  for_each items (reconcile_step lsc n)
    (World (<[lsc := ValList xs]> h) m t) =
  (Ret tt,
   World (<[lsc := ValList (fold_left (write_entry n) es xs)]> h) m
         (t ++ map (fun e => EvLog WARNING (MsgInvalidIndex (VInt e.1)))
                   (filter (fun e => in_range n e = false) es))).
Proof.
  intros Hn Hes Hok. revert xs t Hn.
  induction Hes as [|item e items es He Hes IH]; intros xs t Hn.
  - simpl. unfold py_ret. by rewrite app_nil_r.
  - apply Forall_cons in Hok as [Hok1 Hok].
    rewrite for_each_cons. subst n.
    rewrite (reconcile_step_entry _ _ e) by done.
    set (n := Z.of_nat (length xs)) in *.
    assert (Hlen : Z.of_nat (length (write_entry n xs e)) = n).
    { unfold write_entry. destruct (in_range n e); [|done].
      by rewrite length_insert. }
    rewrite (IH Hok _ _ Hlen). simpl.
    rewrite filter_cons. f_equal. f_equal.
    destruct (in_range n e) eqn:Hr.
    + rewrite decide_False by done. by rewrite app_nil_r.
    + rewrite decide_True by done. simpl. by rewrite <- app_assoc.
Qed.

(** The pure operations raise instances of [Exception] only. *)
Lemma py_getitem_str_raises v k e :
  py_getitem_str v k = Raise e -> isinstance_Exception e = true.
Proof.
  destruct v; simpl; try (by intros [= <-]).
  destruct (dict_get d k); [done|by intros [= <-]].
Qed.

Lemma py_iter_raises v e :
  py_iter v = Raise e -> isinstance_Exception e = true.
Proof. destruct v; simpl; try done; by intros [= <-]. Qed.

Lemma py_int_le_raises a v e :
  py_int_le a v = Raise e -> isinstance_Exception e = true.
Proof. destruct v; simpl; try done; by intros [= <-]. Qed.

Lemma py_lt_int_raises v b e :
  py_lt_int v b = Raise e -> isinstance_Exception e = true.
Proof. destruct v; simpl; try done; by intros [= <-]. Qed.

Lemma py_index_raises v e :
  py_index v = Raise e -> isinstance_Exception e = true.
Proof. destruct v; simpl; try done; by intros [= <-]. Qed.

Lemma py_format_raises v e :
  py_format v = Raise e -> isinstance_Exception e = true.
Proof.
  unfold py_format. destruct (py_format_ok v); [done|]. by intros [= <-].
Qed.

(** One iteration on an arbitrary item: whatever the item is, the only
    store cell touched is [scores], its length is kept, the model is not
    called, and what is raised is an instance of [Exception].  The result
    does not depend on the rest of the world. *)
Lemma reconcile_step_shape n item xs :
  Z.of_nat (length xs) = n ->
  exists (o : outcome unit) xs' evs,
    length xs' = length xs /\
    rerank_calls evs = [] /\
    (forall e, o = Raise e -> isinstance_Exception e = true) /\
    forall lsc h (m : M) t,
      reconcile_step lsc n item (World (<[lsc := ValList xs]> h) m t) =
      (o, World (<[lsc := ValList xs']> h) m (t ++ evs)).
Proof.
  intros Hn.
  assert (Hstay : forall (o : outcome unit),
    (forall e, o = Raise e -> isinstance_Exception e = true) ->
    exists (o' : outcome unit) xs' evs,
      length xs' = length xs /\ rerank_calls evs = [] /\
      (forall e, o' = Raise e -> isinstance_Exception e = true) /\
      forall lsc h (m : M) t,
        (o, World (<[lsc := ValList xs]> h) m t) =
        (o', World (<[lsc := ValList xs']> h) m (t ++ evs))).
  { intros o Ho. exists o, xs, []. repeat split; try done.
    intros. by rewrite app_nil_r. }
  unfold reconcile_step. py_unfold.
  destruct (py_getitem_str item "index") as [idx|e] eqn:Hidx; simpl;
    [|apply Hstay; intros ? [= <-]; eauto using py_getitem_str_raises].
  destruct (py_getitem_str item "relevance_score") as [score|e] eqn:Hsc; simpl;
    [|apply Hstay; intros ? [= <-]; eauto using py_getitem_str_raises].
  destruct (py_int_le 0 idx) as [lo|e] eqn:Hlo; simpl;
    [|apply Hstay; intros ? [= <-]; eauto using py_int_le_raises].
  assert (Hwarn : exists (o : outcome unit) xs' evs,
    length xs' = length xs /\ rerank_calls evs = [] /\
    (forall e, o = Raise e -> isinstance_Exception e = true) /\
    forall lsc h (m : M) t,
      match py_format idx with
      | Ret _ =>
          (Ret tt, World (<[lsc := ValList xs]> h) m
                         (t ++ [EvLog WARNING (MsgInvalidIndex idx)]))
      | Raise e => (Raise e, World (<[lsc := ValList xs]> h) m t)
      end =
      (o, World (<[lsc := ValList xs']> h) m (t ++ evs))).
  { destruct (py_format idx) as [[]|e] eqn:Hf.
    - exists (Ret tt), xs, [EvLog WARNING (MsgInvalidIndex idx)].
      repeat split; done.
    - apply Hstay. intros ? [= <-]. eauto using py_format_raises. }
  destruct lo; simpl; [|exact Hwarn].
  destruct (py_lt_int idx n) as [hi|e] eqn:Hhi; simpl;
    [|apply Hstay; intros ? [= <-]; eauto using py_lt_int_raises].
  destruct hi; simpl; [|exact Hwarn].
  unfold list_setitem. py_unfold.
  destruct (py_index idx) as [i|e] eqn:Hix; simpl;
    [|apply Hstay; intros ? [= <-]; eauto using py_index_raises].
  destruct ((0 <=? (if i <? 0 then i + Z.of_nat (length xs) else i)) &&
            ((if i <? 0 then i + Z.of_nat (length xs) else i)
               <? Z.of_nat (length xs))) eqn:Hb.
  - exists (Ret tt),
      (<[Z.to_nat (if i <? 0 then i + Z.of_nat (length xs) else i) := score]> xs),
      [].
    repeat split; try done.
    + by rewrite length_insert.
    + intros. rewrite lookup_insert_eq, Hb. simpl.
      by rewrite insert_insert_eq, app_nil_r.
  - exists (Raise (IndexError "list assignment index out of range")), xs, [].
    repeat split; try done.
    + by intros ? [= <-].
    + intros. rewrite lookup_insert_eq, Hb. simpl. by rewrite app_nil_r.
Qed.

(** The same for the whole loop. *)
Lemma for_each_shape n items : forall xs,
  Z.of_nat (length xs) = n ->
  exists (o : outcome unit) xs' evs,
    length xs' = length xs /\
    rerank_calls evs = [] /\
    (forall e, o = Raise e -> isinstance_Exception e = true) /\
    forall lsc h (m : M) t,
      for_each items (reconcile_step lsc n)
        (World (<[lsc := ValList xs]> h) m t) =
      (o, World (<[lsc := ValList xs']> h) m (t ++ evs)).
Proof.
  induction items as [|item items IH]; intros xs Hn.
  - exists (Ret tt), xs, []. repeat split; try done.
    intros. simpl. unfold py_ret. by rewrite app_nil_r.
  - destruct (reconcile_step_shape n item xs Hn)
      as (o1 & xs1 & evs1 & Hl1 & Hc1 & He1 & Hrun1).
    destruct o1 as [[]|e1].
    + destruct (IH xs1) as (o2 & xs2 & evs2 & Hl2 & Hc2 & He2 & Hrun2);
        [congruence|].
      exists o2, xs2, (evs1 ++ evs2)%list. repeat split; try done.
      * congruence.
      * unfold rerank_calls in *. by rewrite omap_app, Hc1, Hc2.
      * intros. by rewrite for_each_cons, Hrun1, Hrun2, app_assoc.
    + exists (Raise e1), xs1, evs1. repeat split; try done.
      intros. by rewrite for_each_cons, Hrun1.
Qed.

(** The reconciliation block for an arbitrary model answer: it allocates
    the score vector at the next unused address, keeps its length equal to
    the document count, touches no other cell, does not call the model and
    raises instances of [Exception] only. *)
Lemma reconcile_shape (N : nat) results :
  exists (o : outcome unit) xs evs,
    length xs = N /\
    rerank_calls evs = [] /\
    (forall e, o = Raise e -> isinstance_Exception e = true) /\
    forall ld docs h (m : M) t,
      h !! ld = Some (StrList docs) ->
      length docs = N ->
      reconcile ld results (World h m t) =
      (match o with
       | Ret _ => Ret (Some (fresh (dom h)))
       | Raise e => Raise e
       end,
       World (<[fresh (dom h) := ValList xs]> h) m (t ++ evs)).
Proof.
  unfold reconcile, zeros. py_unfold.
  destruct (py_getitem_str results "results") as [container|e] eqn:Hc.
  2:{ exists (Raise e), (zero_scores N), []. repeat split.
      - apply length_replicate.
      - intros ? [= <-]. eauto using py_getitem_str_raises.
      - intros ld docs h m t Hld Hlen. rewrite Hld. simpl.
        by rewrite Nat2Z.id, Hlen, app_nil_r. }
  destruct (py_iter container) as [items|e] eqn:Hit.
  2:{ exists (Raise e), (zero_scores N), []. repeat split.
      - apply length_replicate.
      - intros ? [= <-]. eauto using py_iter_raises.
      - intros ld docs h m t Hld Hlen. rewrite Hld. simpl.
        by rewrite Nat2Z.id, Hlen, app_nil_r. }
  destruct (for_each_shape (Z.of_nat N) items (zero_scores N))
    as (o & xs & evs & Hl & Hcalls & Hexc & Hrun).
  { unfold zero_scores. by rewrite length_replicate. }
  unfold zero_scores in Hl. rewrite length_replicate in Hl.
  destruct o as [[]|e].
  - destruct (py_format (VList xs)) as [[]|e] eqn:Hf.
    + exists (Ret tt), xs, (evs ++ [EvLog DEBUG (MsgScores xs)])%list.
      repeat split; try done.
      * unfold rerank_calls in *. rewrite omap_app, Hcalls. done.
      * intros ld docs h m t Hld Hlen. rewrite Hld. simpl.
        rewrite Nat2Z.id, Hlen. fold (zero_scores N). rewrite Hrun. simpl.
        rewrite lookup_insert_eq. simpl. rewrite Hf. simpl.
        by rewrite app_assoc.
    + exists (Raise e), xs, evs. repeat split; try done.
      * intros ? [= <-]. eauto using py_format_raises.
      * intros ld docs h m t Hld Hlen. rewrite Hld. simpl.
        rewrite Nat2Z.id, Hlen. fold (zero_scores N). rewrite Hrun. simpl.
        rewrite lookup_insert_eq. simpl. by rewrite Hf.
  - exists (Raise e), xs, evs. repeat split; try done.
    intros ld docs h m t Hld Hlen. rewrite Hld. simpl.
    rewrite Nat2Z.id, Hlen. fold (zero_scores N). by rewrite Hrun.
Qed.

(** The reconciliation block on a well-formed result set whose log
    messages can be built. *)
Lemma reconcile_entries results es ld docs h (m : M) t :
  result_set results es ->
  h !! ld = Some (StrList docs) ->
  let N := length docs in
  let xs := fold_left (write_entry (Z.of_nat N)) es (zero_scores N) in
  Forall (fun e => in_range (Z.of_nat N) e = false -> py_str_int_ok e.1 = true)
    es ->
  py_format (VList xs) = Ret tt ->
  reconcile ld results (World h m t) =
  (Ret (Some (fresh (dom h))),
   World (<[fresh (dom h) := ValList xs]> h) m
     (t ++ map (fun e => EvLog WARNING (MsgInvalidIndex (VInt e.1)))
               (filter (fun e => in_range (Z.of_nat N) e = false) es)
        ++ [EvLog DEBUG (MsgScores xs)])).
Proof.
  intros (container & items & Hc & Hit & Hes) Hld N xs Hok Hf.
  unfold reconcile, zeros. py_unfold.
  rewrite Hld, Hc, Hit. simpl. rewrite Nat2Z.id. fold N (zero_scores N).
  rewrite (for_each_entries _ items es (Z.of_nat N) (zero_scores N)); try done.
  - simpl. rewrite lookup_insert_eq. simpl. fold xs. rewrite Hf. simpl.
    by rewrite app_assoc.
  - unfold zero_scores. by rewrite length_replicate.
Qed.

(** [predict] on a non-empty request, up to the reconciliation block. *)
Lemma predict_nonempty sentences q d rest (w : world M) :
  heap w !! sentences = Some (PairList ((q, d) :: rest)) ->
  let docs := d :: map snd rest in
  let ld := fresh (dom (heap w)) in
  let h1 := <[ld := StrList docs]> (heap w) in
  let t1 := (trace w ++
             [EvLog DEBUG (MsgReranking (Z.of_nat (length docs)));
              EvLog DEBUG (MsgQuery (prefix100 q));
              EvRerank q docs false])%list in
  predict sentences w =
  match rerank (model w) q docs false with
  | (Ret results, m') =>
      try_except_Exception (reconcile ld results)
        (fun e => log_f ERROR (MsgError e) ;;; py_ret None)
        (World h1 m' t1)
  | (Raise e, m') =>
      if isinstance_Exception e
      then (Ret None, World h1 m' (t1 ++ [EvLog ERROR (MsgError e)]))
      else (Raise e, World h1 m' t1)
  end.
Proof.
  intros Hs docs ld h1 t1.
  unfold predict, py_not, py_len, try_except_Exception, predict_body,
    first_query, documents_of, call_rerank, py_len.
  py_unfold.
  repeat first [rewrite Hs | rewrite lookup_insert_eq | progress simpl].
  fold docs ld h1.
  assert (Ht : (((trace w ++
                  [EvLog DEBUG
                     (MsgReranking (Z.of_nat (S (length (map snd rest)))))]) ++
                 [EvLog DEBUG (MsgQuery (prefix100 q))]) ++
                [EvRerank q docs false])%list = t1).
  { unfold t1. by rewrite <- !app_assoc. }
  rewrite Ht.
  destruct (rerank (model w) q docs false) as [[results|e] m'];
    [reflexivity|].
  destruct (isinstance_Exception e); reflexivity.
Qed.

(** [predict] on a non-empty request when the model answers with a
    well-formed result set whose log messages can be built: the whole run
    in closed form. *)
Lemma predict_entries sentences q d rest (w : world M) results m' es :
  heap w !! sentences = Some (PairList ((q, d) :: rest)) ->
  let docs := d :: map snd rest in
  let N := length docs in
  let ld := fresh (dom (heap w)) in
  let h1 := <[ld := StrList docs]> (heap w) in
  let xs := fold_left (write_entry (Z.of_nat N)) es (zero_scores N) in
  rerank (model w) q docs false = (Ret results, m') ->
  result_set results es ->
  Forall (fun e => in_range (Z.of_nat N) e = false -> py_str_int_ok e.1 = true)
    es ->
  py_format (VList xs) = Ret tt ->
  predict sentences w =
  (Ret (Some (fresh (dom h1))),
   World (<[fresh (dom h1) := ValList xs]> h1) m'
     ((trace w ++
       [EvLog DEBUG (MsgReranking (Z.of_nat N));
        EvLog DEBUG (MsgQuery (prefix100 q));
        EvRerank q docs false]) ++
      map (fun e => EvLog WARNING (MsgInvalidIndex (VInt e.1)))
          (filter (fun e => in_range (Z.of_nat N) e = false) es) ++
      [EvLog DEBUG (MsgScores xs)])).
Proof.
  intros Hs docs N ld h1 xs Hr Hes Hok Hf.
  rewrite (predict_nonempty _ _ _ _ _ Hs). fold docs. rewrite Hr.
  unfold try_except_Exception.
  rewrite (reconcile_entries results es _ docs);
    [done|done|apply lookup_insert_eq|done|done].
Qed.

End Run.

(** ** The score vector as a function of the result set *)

Lemma write_entry_length n xs e : length (write_entry n xs e) = length xs.
Proof.
  unfold write_entry. destruct (in_range n e); [|done]. apply length_insert.
Qed.

Lemma fold_write_entry_length n es : forall xs,
  length (fold_left (write_entry n) es xs) = length xs.
Proof.
  induction es as [|e es IH]; intros xs; simpl; [done|].
  by rewrite IH, write_entry_length.
Qed.

(** Slot [j] ends up with the last score reported for index [j], or keeps
    its initial value when no entry mentions [j]. *)
Lemma fold_write_entry_lookup n es : forall xs (j : nat),
  Z.of_nat (length xs) = n ->
  (j < length xs)%nat ->
  fold_left (write_entry n) es xs !! j =
  match last_reported es (Z.of_nat j) with
  | Some s => Some s
  | None => xs !! j
  end.
Proof.
  induction es as [|[i s] es IH]; intros xs j Hn Hj; simpl; [done|].
  rewrite IH by (rewrite ?write_entry_length; done).
  destruct (last_reported es (Z.of_nat j)); [done|].
  unfold write_entry, in_range. simpl.
  destruct (i =? Z.of_nat j) eqn:Hij.
  - apply Z.eqb_eq in Hij. subst i.
    assert (((0 <=? Z.of_nat j) && (Z.of_nat j <? n)) = true) as -> by lia.
    rewrite Nat2Z.id. by apply list_lookup_insert_eq.
  - apply Z.eqb_neq in Hij.
    destruct ((0 <=? i) && (i <? n)) eqn:Hr; [|done].
    apply list_lookup_insert_ne. lia.
Qed.

Lemma last_reported_elem_of es i s :
  last_reported es i = Some s -> (i, s) ∈ es.
Proof.
  induction es as [|[j s'] es IH]; simpl; [done|].
  destruct (last_reported es i) eqn:Hl.
  - intros [= <-]. right. by apply IH.
  - destruct (j =? i) eqn:Hji; [|done].
    apply Z.eqb_eq in Hji. intros [= <-]. subst j. left.
Qed.

Lemma last_reported_None es i :
  last_reported es i = None <-> forall s, (i, s) ∉ es.
Proof.
  induction es as [|[j s'] es IH]; simpl.
  - split; [|done]. intros _ s Hin. by apply elem_of_nil in Hin.
  - split.
    + destruct (last_reported es i); [done|].
      destruct (j =? i) eqn:Hji; [done|]. apply Z.eqb_neq in Hji.
      intros _ s Hin. apply elem_of_cons in Hin as [[= ? ?]|Hin]; [lia|].
      destruct IH as [IH _]. by apply (IH eq_refl s).
    + intros Hno.
      destruct IH as [_ IH]. rewrite IH.
      * destruct (j =? i) eqn:Hji; [|done]. apply Z.eqb_eq in Hji. subst j.
        exfalso. apply (Hno s'). left.
      * intros s Hin. apply (Hno s). by right.
Qed.



(** ** When the log messages can be built *)

Lemma plain_value_format_ok v : plain_value v = true -> py_format_ok v = true.
Proof. by destruct v. Qed.

(** A list of plain values can be printed. *)
Lemma py_format_plain_list xs :
  Forall (fun v => plain_value v = true) xs -> py_format (VList xs) = Ret tt.
Proof.
  intros Hxs. unfold py_format.
  assert (forallb py_format_ok xs = true) as Hok.
  { induction Hxs as [|v xs Hv _ IH]; simpl; [done|].
    by rewrite (plain_value_format_ok v Hv), IH. }
  simpl. by rewrite Hok.
Qed.

Lemma loggable_index n es :
  Forall (fun e => loggable n e = true) es ->
  Forall (fun e => in_range n e = false -> py_str_int_ok e.1 = true) es.
Proof.
  intros Hes. eapply Forall_impl; [exact Hes|].
  intros e He Hr. unfold loggable in He. by rewrite Hr in He.
Qed.

(** The vector built from loggable entries holds plain values only. *)
Lemma fold_write_entry_plain n es : forall xs,
  Forall (fun e => loggable n e = true) es ->
  Forall (fun v => plain_value v = true) xs ->
  Forall (fun v => plain_value v = true) (fold_left (write_entry n) es xs).
Proof.
  induction es as [|e es IH]; intros xs Hes Hxs; simpl; [done|].
  apply Forall_cons in Hes as [He Hes]. apply IH; [done|].
  unfold write_entry, loggable in *.
  destruct (in_range n e); [|done]. by apply Forall_insert.
Qed.

Lemma zero_scores_plain n :
  Forall (fun v => plain_value v = true) (zero_scores n).
Proof. unfold zero_scores. by apply Forall_replicate. Qed.

(** ** The shape of every run on a non-empty request *)

Section Shape.
Context {M : Type} `{RankingModel M}.

(** Whatever the model does, a run of [predict] on a non-empty request
    - allocates the document batch at the first unused address and, when
      the model returned, the score vector at the next one;
    - writes no other cell;
    - records exactly one model call, after the two debug records;
    - ends in [None], in the address of a score vector as long as the
      request, or in the non-[Exception] exception the model raised. *)
Lemma predict_shape sentences q d rest (w : world M) :
  heap w !! sentences = Some (PairList ((q, d) :: rest)) ->
  let docs := d :: map snd rest in
  let ld := fresh (dom (heap w)) in
  let h1 := <[ld := StrList docs]> (heap w) in
  let lsc := fresh (dom h1) in
  let t1 := (trace w ++
             [EvLog DEBUG (MsgReranking (Z.of_nat (length docs)));
              EvLog DEBUG (MsgQuery (prefix100 q));
              EvRerank q docs false])%list in
  exists o h' evs,
    predict sentences w =
      (o, World h' (snd (rerank (model w) q docs false)) (t1 ++ evs)) /\
    rerank_calls evs = [] /\
    ((o = Ret None /\ (h' = h1 \/ exists xs, h' = <[lsc := ValList xs]> h1)) \/
     (o = Ret (Some lsc) /\
      exists xs, h' = <[lsc := ValList xs]> h1 /\ length xs = length docs) \/
     (exists e, o = Raise e /\ h' = h1 /\ isinstance_Exception e = false /\
                fst (rerank (model w) q docs false) = Raise e)).
Proof.
  intros Hs docs ld h1 lsc t1.
  rewrite (predict_nonempty _ _ _ _ _ Hs). fold docs ld h1 t1.
  destruct (rerank (model w) q docs false) as [[results|e] m'] eqn:Hr; simpl.
  - destruct (reconcile_shape (M:=M) (length docs) results)
      as (o & xs & evs & Hl & Hcalls & Hexc & Hrun).
    unfold try_except_Exception.
    rewrite (Hrun ld docs h1 m' t1) by (done || apply lookup_insert_eq).
    fold lsc. destruct o as [[]|e].
    + exists (Ret (Some lsc)), (<[lsc := ValList xs]> h1), evs.
      split_and!; try done. right. left. eauto.
    + rewrite (Hexc e eq_refl). py_unfold.
      exists (Ret None), (<[lsc := ValList xs]> h1),
        (evs ++ [EvLog ERROR (MsgError e)])%list.
      split_and!.
      * by rewrite app_assoc.
      * unfold rerank_calls in *. by rewrite omap_app, Hcalls.
      * left. eauto.
  - destruct (isinstance_Exception e) eqn:He.
    + exists (Ret None), h1, [EvLog ERROR (MsgError e)].
      split_and!; try done. left. eauto.
    + exists (Raise e), h1, []. rewrite app_nil_r.
      split_and!; try done. right. right. eauto.
Qed.

(** The two addresses a run allocates are new, hence not [sentences]. *)
Lemma fresh_not_allocated (h : gmap loc pyobj) l o :
  h !! l = Some o -> fresh (dom h) <> l.
Proof.
  intros Hl Heq. apply (is_fresh (dom h)). rewrite Heq.
  apply elem_of_dom. eauto.
Qed.

End Shape.

(** ** Well-formed result sets *)

Section Entries.
Context {M : Type} `{RankingModel M}.

(** On a non-empty request and a well-formed result set whose log
    messages can be built, [predict] returns a new score vector as long as
    the request whose slot [j] holds the last score reported for [j], or
    [0.0] when none was; every out-of-range entry leaves one warning and
    nothing else. *)
Lemma predict_entries_scores (w : world M) sentences req results m' es :
  heap w !! sentences = Some (PairList req) ->
  req <> [] ->
  rerank (model w) (query_of req) (map snd req) false = (Ret results, m') ->
  result_set results es ->
  Forall (fun e => loggable (Z.of_nat (length req)) e = true) es ->
  exists l scores,
    fst (predict sentences w) = Ret (Some l) /\
    heap (snd (predict sentences w)) !! l = Some (ValList scores) /\
    length scores = length req /\
    (forall j : nat, (j < length req)%nat ->
       scores !! j =
       Some (default (VFloat 0%float) (last_reported es (Z.of_nat j)))) /\
    invalid_index_warnings (trace (snd (predict sentences w))) =
      (invalid_index_warnings (trace w) ++
       map (fun e => VInt e.1)
           (filter (fun e => in_range (Z.of_nat (length req)) e = false) es))%list.
Proof.
  intros Hs Hne Hr Hes Hlog. destruct req as [|[q d] rest]; [done|].
  simpl in Hr.
  assert (HN : length (d :: map snd rest) = length ((q, d) :: rest))
    by (simpl; by rewrite length_map).
  rewrite (predict_entries _ _ _ _ _ _ _ es Hs Hr Hes).
  2:{ rewrite HN. by apply loggable_index. }
  2:{ rewrite HN. apply py_format_plain_list, fold_write_entry_plain; [done|].
      apply zero_scores_plain. }
  cbn [fst snd heap trace length]. rewrite length_map.
  set (N := S (length rest)).
  eexists _, _. split_and!; [done|apply lookup_insert_eq|..].
  - rewrite fold_write_entry_length. apply length_replicate.
  - intros j Hj.
    rewrite fold_write_entry_lookup.
    + destruct (last_reported es (Z.of_nat j)); [done|].
      by apply lookup_replicate_2.
    + unfold zero_scores. by rewrite length_replicate.
    + unfold zero_scores. by rewrite length_replicate.
  - assert (Hw : forall l : list (Z * pyval),
      invalid_index_warnings
        (map (fun e => EvLog WARNING (MsgInvalidIndex (VInt e.1))) l) =
      map (fun e => VInt e.1) l).
    { induction l as [|e l IH]; simpl; [done|]. by rewrite IH. }
    unfold invalid_index_warnings in *. rewrite !omap_app, Hw. simpl.
    by rewrite !app_nil_r.
Qed.

End Entries.

(** ** Claims about well-formed result sets *)

Section WellFormedClaims.
Context {M : Type} `{RankingModel M}.





End WellFormedClaims.

(** ** Claims about every run *)

Section GeneralClaims.
Context {M : Type} `{RankingModel M}.

(** [predict] on the empty request, in closed form. *)
Lemma predict_on_empty (w : world M) sentences :
  heap w !! sentences = Some (PairList []) ->
  predict sentences w =
  (Ret None,
   World (heap w) (model w) (trace w ++ [EvLog WARNING MsgEmptySentences])).
Proof.
  intros Hs. unfold predict, py_not. py_unfold. by rewrite Hs.
Qed.

(** On a non-empty request [predict] is its [try] statement. *)
Lemma predict_try (w : world M) sentences req :
  heap w !! sentences = Some (PairList req) ->
  req <> [] ->
  predict sentences w =
  try_except_Exception (predict_body sentences)
    (fun e => log_f ERROR (MsgError e) ;;; py_ret None) w.
Proof.
  intros Hs Hne. destruct req; [done|].
  unfold predict, py_not. py_unfold. by rewrite Hs.
Qed.

(** C3.  On the empty request [predict] returns [None] (not an empty
    vector), after one warning; it does not call the model and allocates
    nothing. *)
Theorem predict_empty_request (w : world M) sentences :
  heap w !! sentences = Some (PairList []) ->
  fst (predict sentences w) = Ret None /\
  rerank_calls (trace (snd (predict sentences w))) = rerank_calls (trace w) /\
  model (snd (predict sentences w)) = model w /\
  heap (snd (predict sentences w)) = heap w /\
  trace (snd (predict sentences w)) =
    (trace w ++ [EvLog WARNING MsgEmptySentences])%list.
Proof.
  intros Hs. rewrite (predict_on_empty w sentences Hs). simpl.
  split_and!; try done.
  unfold rerank_calls. rewrite omap_app. simpl. apply app_nil_r.
Qed.

(** C2, as the code has it.  An instance of [Exception] raised by the
    model call or by the reconciliation ends in [None], and [predict]
    never lets an instance of [Exception] escape.  An exception outside
    [Exception] ([KeyboardInterrupt], [SystemExit], [GeneratorExit]) raised
    by the model call is not caught: [predict] raises it to its caller, and
    that is the only thing [predict] ever raises. *)
Theorem predict_absorbs_Exception (w : world M) sentences req :
  heap w !! sentences = Some (PairList req) ->
  (forall e w', req <> [] ->
     predict_body sentences w = (Raise e, w') ->
     isinstance_Exception e = true ->
     fst (predict sentences w) = Ret None) /\
  (forall e, req <> [] ->
     fst (rerank (model w) (query_of req) (map snd req) false) = Raise e ->
     fst (predict sentences w) =
       if isinstance_Exception e then Ret None else Raise e) /\
  (forall e, fst (predict sentences w) = Raise e ->
     isinstance_Exception e = false /\
     req <> [] /\
     fst (rerank (model w) (query_of req) (map snd req) false) = Raise e).
Proof.
  intros Hs. split_and!.
  - intros e w' Hne Hbody He.
    rewrite (predict_try w sentences req Hs Hne).
    unfold try_except_Exception. by rewrite Hbody, He.
  - intros e Hne Hr. destruct req as [|[q d] rest]; [done|].
    simpl in Hr. rewrite (predict_nonempty _ _ _ _ _ Hs).
    destruct (rerank (model w) q (d :: map snd rest) false) as [o m'].
    simpl in Hr. subst o. by destruct (isinstance_Exception e).
  - intros e Hraise. destruct req as [|[q d] rest].
    + by rewrite (predict_on_empty w sentences Hs) in Hraise.
    + destruct (predict_shape sentences q d rest w Hs)
        as (o & h' & evs & Hrun & _ & Hcases).
      rewrite Hrun in Hraise. simpl in Hraise. subst o.
      destruct Hcases as [[? _]|[[? _]|(e' & [= <-] & _ & He & Hr)]];
        done.
Qed.

(** C6.  Whatever the model answers (full, partial, duplicate,
    out-of-range or ill-formed results), when [predict] returns a list it
    is a list of exactly as many scores as the request has pairs. *)
Theorem predict_length (w w' : world M) sentences req l :
  heap w !! sentences = Some (PairList req) ->
  req <> [] ->
  predict sentences w = (Ret (Some l), w') ->
  exists scores,
    heap w' !! l = Some (ValList scores) /\ length scores = length req.
Proof.
  intros Hs Hne Hrun. destruct req as [|[q d] rest]; [done|].
  destruct (predict_shape sentences q d rest w Hs)
    as (o & h' & evs & Hrun' & _ & Hcases).
  rewrite Hrun in Hrun'. injection Hrun' as <- ->.
  destruct Hcases as [[? _]|[[[= ->] (xs & -> & Hlen)]|(e & ? & _)]];
    try done.
  exists xs. simpl. split; [apply lookup_insert_eq|].
  rewrite Hlen. simpl. by rewrite length_map.
Qed.

(** C7.  On a non-empty request [predict] calls the model exactly once,
    with the first pair's query, the documents of the pairs in request
    order, and [return_embeddings=False]. *)
Theorem predict_calls_model_once (w : world M) sentences req :
  heap w !! sentences = Some (PairList req) ->
  req <> [] ->
  rerank_calls (trace (snd (predict sentences w))) =
    (rerank_calls (trace w) ++ [(query_of req, map snd req, false)])%list /\
  model (snd (predict sentences w)) =
    snd (rerank (model w) (query_of req) (map snd req) false).
Proof.
  intros Hs Hne. destruct req as [|[q d] rest]; [done|].
  destruct (predict_shape sentences q d rest w Hs)
    as (o & h' & evs & Hrun & Hcalls & _).
  rewrite Hrun. simpl. split; [|done].
  unfold rerank_calls in *. rewrite !omap_app, Hcalls. simpl.
  by rewrite app_nil_r.
Qed.

(** C10.  [predict] does not mutate its input: after the call the request
    list, and every other object that existed before, is unchanged, and a
    returned score vector is a new object, distinct from the request. *)
Theorem predict_preserves_input (w : world M) sentences req :
  heap w !! sentences = Some (PairList req) ->
  heap (snd (predict sentences w)) !! sentences = Some (PairList req) /\
  (forall l o, heap w !! l = Some o ->
     heap (snd (predict sentences w)) !! l = Some o) /\
  (forall l, fst (predict sentences w) = Ret (Some l) ->
     l <> sentences /\ heap w !! l = None).
Proof.
  intros Hs.
  assert (Hgoal :
    (forall l o, heap w !! l = Some o ->
       heap (snd (predict sentences w)) !! l = Some o) /\
    (forall l, fst (predict sentences w) = Ret (Some l) ->
       l <> sentences /\ heap w !! l = None)).
  { destruct req as [|[q d] rest].
    - rewrite (predict_on_empty w sentences Hs). simpl. by split.
    - destruct (predict_shape sentences q d rest w Hs)
        as (o & h' & evs & Hrun & _ & Hcases).
      rewrite Hrun. simpl.
      set (docs := d :: map snd rest) in *.
      set (h1 := <[fresh (dom (heap w)) := StrList docs]> (heap w)) in *.
      assert (Hh1 : forall l ob, heap w !! l = Some ob -> h1 !! l = Some ob).
      { intros l ob Hl. unfold h1. rewrite lookup_insert_ne; [done|].
        by apply (fresh_not_allocated _ _ ob). }
      assert (Hh2 : forall xs l ob, heap w !! l = Some ob ->
                <[fresh (dom h1) := ValList xs]> h1 !! l = Some ob).
      { intros xs l ob Hl. rewrite lookup_insert_ne; [by apply Hh1|].
        apply (fresh_not_allocated _ _ ob). by apply Hh1. }
      assert (Hnew : fresh (dom h1) <> sentences /\
                     heap w !! fresh (dom h1) = None).
      { split.
        - apply (fresh_not_allocated _ _ (PairList ((q, d) :: rest))).
          by apply Hh1.
        - destruct (heap w !! fresh (dom h1)) as [o'|] eqn:Hl; [|done].
          by destruct (fresh_not_allocated h1 _ o' (Hh1 _ _ Hl)). }
      destruct Hcases
        as [[-> [->|[xs ->]]]|[[-> (xs & -> & _)]|(e & -> & -> & _)]];
        split; try done; eauto.
      by intros l [= <-]. }
  destruct Hgoal as [Hframe Hnew]. split_and!; eauto.
Qed.

(** C9.  The queries of the pairs after the first do not matter: two
    non-empty requests with the same documents and the same first query
    give the same outcome, the same model call, the same trace and the
    same store away from the request itself (so the same score vector). *)
Theorem predict_ignores_later_queries
    (σ : gmap loc pyobj) (m : M) t sentences req1 req2 :
  req1 <> [] ->
  map snd req1 = map snd req2 ->
  query_of req1 = query_of req2 ->
  let r1 := predict sentences (World (<[sentences := PairList req1]> σ) m t) in
  let r2 := predict sentences (World (<[sentences := PairList req2]> σ) m t) in
  fst r1 = fst r2 /\
  model (snd r1) = model (snd r2) /\
  trace (snd r1) = trace (snd r2) /\
  forall l, l <> sentences -> heap (snd r1) !! l = heap (snd r2) !! l.
Proof.
  intros Hne Hdocs Hq.
  destruct req1 as [|[q d1] rest1]; [done|].
  destruct req2 as [|[q2 d2] rest2]; [done|].
  simpl in Hq. subst q2. simpl in Hdocs.
  intros r1 r2. unfold r1, r2.
  rewrite (predict_nonempty sentences q d1 rest1) by apply lookup_insert_eq.
  rewrite (predict_nonempty sentences q d2 rest2) by apply lookup_insert_eq.
  cbn [heap model trace]. rewrite <- Hdocs.
  set (docs := d1 :: map snd rest1).
  assert (Hdom : dom (<[sentences := PairList ((q, d2) :: rest2)]> σ) =
                 dom (<[sentences := PairList ((q, d1) :: rest1)]> σ))
    by (by rewrite !dom_insert_L).
  rewrite Hdom.
  set (ld := fresh (dom (<[sentences := PairList ((q, d1) :: rest1)]> σ))).
  set (h1 := <[ld := StrList docs]> (<[sentences := PairList ((q, d1) :: rest1)]> σ)).
  set (h2 := <[ld := StrList docs]> (<[sentences := PairList ((q, d2) :: rest2)]> σ)).
  set (t1 := (t ++ _)%list).
  assert (Hh : forall l, l <> sentences -> h1 !! l = h2 !! l).
  { intros l Hl. unfold h1, h2.
    destruct (decide (ld = l)) as [->|Hld].
    - by rewrite !lookup_insert_eq.
    - rewrite !(lookup_insert_ne _ ld) by done.
      by rewrite !lookup_insert_ne. }
  assert (Hdom' : dom h2 = dom h1).
  { unfold h1, h2. by rewrite !(dom_insert_L _ ld), Hdom. }
  destruct (rerank m q docs false) as [[results|e] m'].
  - destruct (reconcile_shape (M:=M) (length docs) results)
      as (o & xs & evs & _ & _ & _ & Hrun).
    unfold try_except_Exception.
    rewrite (Hrun ld docs h1 m' t1) by (done || apply lookup_insert_eq).
    rewrite (Hrun ld docs h2 m' t1) by (done || apply lookup_insert_eq).
    rewrite Hdom'.
    assert (Hh' : forall l, l <> sentences ->
      <[fresh (dom h1) := ValList xs]> h1 !! l =
      <[fresh (dom h1) := ValList xs]> h2 !! l).
    { intros l Hl. destruct (decide (fresh (dom h1) = l)) as [->|Hn].
      - by rewrite !lookup_insert_eq.
      - rewrite !lookup_insert_ne by done. by apply Hh. }
    destruct o as [[]|e]; [by split_and!|].
    destruct (isinstance_Exception e); by split_and!.
  - destruct (isinstance_Exception e); by split_and!.
Qed.

End GeneralClaims.

(** ** The examples of the specification, and instances of the theorems *)

(** [("what is rust?", "doc A"), ("what is rust?", "doc B")] with results
    [{index: 1, score: 0.9}, {index: 0, score: 0.2}] gives [[0.2, 0.9]]. *)
Example predict_rust :
  let r := predict (H := constant_model rust_answer) 1%positive
             (world_of rust_request) in
  fst r = Ret (Some 3%positive) /\
  heap (snd r) !! 3%positive =
    Some (ValList [VFloat 0.2%float; VFloat 0.9%float]).
Proof. vm_compute. split; reflexivity. Qed.

(** [("q","A"), ("q","B"), ("q","C")] with the single result
    [{index: 5, score: 0.99}] gives [[0.0, 0.0, 0.0]] and a warning. *)
Example predict_stray :
  let r := predict (H := constant_model stray_answer) 1%positive
             (world_of abc_request) in
  fst r = Ret (Some 3%positive) /\
  heap (snd r) !! 3%positive =
    Some (ValList [VFloat 0%float; VFloat 0%float; VFloat 0%float]) /\
  invalid_index_warnings (trace (snd r)) = [VInt 5].
Proof. vm_compute. repeat split; reflexivity. Qed.

(** A model that answers with a bare list, not a dict: [results['results']]
    raises [TypeError], which ends in [None]. *)
Example predict_ill_formed :
  fst (predict (H := constant_model (VList [entry 0 0.5%float])) 1%positive
         (world_of abc_request)) = Ret None.
Proof. vm_compute. reflexivity. Qed.

(** An entry whose index is the float [1.0]: the range test passes and the
    list assignment raises [TypeError], which ends in [None]. *)
Example predict_float_index :
  fst (predict
         (H := constant_model
                 (answer [VDict [("index", VFloat 1%float);
                                 ("relevance_score", VFloat 0.5%float)]]))
         1%positive (world_of abc_request)) = Ret None.
Proof. vm_compute. reflexivity. Qed.

(** An entry without a score: [result['relevance_score']] raises
    [KeyError], which ends in [None]. *)
Example predict_missing_score :
  fst (predict (H := constant_model (answer [VDict [("index", VInt 0)]]))
         1%positive (world_of abc_request)) = Ret None.
Proof. vm_compute. reflexivity. Qed.

Lemma result_set_answer items es :
  Forall2 entry_of items es -> result_set (answer items) es.
Proof. intros Hes. exists (VList items), items. by split_and!. Defined.









Lemma predict_empty_request_witness :
  let r := predict (H := constant_model rust_answer) 1%positive (world_of []) in
  fst r = Ret None /\
  rerank_calls (trace (snd r)) = rerank_calls (trace (world_of [])) /\
  model (snd r) = model (world_of []) /\
  heap (snd r) = heap (world_of []) /\
  trace (snd r) =
    (trace (world_of []) ++ [EvLog WARNING MsgEmptySentences])%list.
Proof.
  apply (predict_empty_request (H := constant_model rust_answer)
           (world_of []) 1%positive).
  reflexivity.
Defined.

(** An [Exception] from the model call ends in [None]. *)
Lemma predict_absorbs_Exception_witness :
  fst (predict (H := failing_model (RuntimeError "CUDA out of memory"))
         1%positive (world_of abc_request)) = Ret None.
Proof.
  apply (proj1 (predict_absorbs_Exception
                  (H := failing_model (RuntimeError "CUDA out of memory"))
                  (world_of abc_request) 1%positive abc_request eq_refl)
           (RuntimeError "CUDA out of memory")
           (snd (predict_body
                   (H := failing_model (RuntimeError "CUDA out of memory"))
                   1%positive (world_of abc_request)))).
  - discriminate.
  - vm_compute. reflexivity.
  - reflexivity.
Defined.

(** C2 as stated fails: [KeyboardInterrupt] is not an [Exception], so when
    the model call raises it inside the [try] block, [except Exception]
    does not catch it and [predict] raises it to its caller. *)
Lemma predict_propagates_KeyboardInterrupt :
  let w := world_of abc_request in
  predict_body (H := failing_model KeyboardInterrupt) 1%positive w =
    (Raise KeyboardInterrupt,
     snd (predict_body (H := failing_model KeyboardInterrupt) 1%positive w)) /\
  fst (predict (H := failing_model KeyboardInterrupt) 1%positive w) =
    Raise KeyboardInterrupt /\
  fst (predict (H := failing_model KeyboardInterrupt) 1%positive w) <>
    Ret None.
Proof. vm_compute. split_and!; [reflexivity..|discriminate]. Qed.

Lemma predict_length_witness :
  exists scores,
    heap (snd (predict (H := constant_model mixed_answer) 1%positive
                 (world_of abc_request))) !! 3%positive =
      Some (ValList scores) /\
    length scores = length abc_request.
Proof.
  apply (predict_length (H := constant_model mixed_answer)
           (world_of abc_request) _ 1%positive abc_request 3%positive).
  - reflexivity.
  - discriminate.
  - vm_compute. reflexivity.
Defined.

Lemma predict_calls_model_once_witness :
  let r := predict (H := constant_model rust_answer) 1%positive
             (world_of rust_request) in
  rerank_calls (trace (snd r)) =
    (rerank_calls (trace (world_of rust_request)) ++
     [(query_of rust_request, map snd rust_request, false)])%list /\
  model (snd r) =
    snd (rerank (RankingModel := constant_model rust_answer)
           (model (world_of rust_request)) (query_of rust_request)
           (map snd rust_request) false).
Proof.
  apply (predict_calls_model_once (H := constant_model rust_answer)
           (world_of rust_request) 1%positive rust_request).
  - reflexivity.
  - discriminate.
Defined.

Lemma predict_preserves_input_witness :
  let r := predict (H := constant_model mixed_answer) 1%positive
             (world_of abc_request) in
  heap (snd r) !! 1%positive = Some (PairList abc_request) /\
  (forall l o, heap (world_of abc_request) !! l = Some o ->
     heap (snd r) !! l = Some o) /\
  (forall l, fst r = Ret (Some l) ->
     l <> 1%positive /\ heap (world_of abc_request) !! l = None).
Proof.
  apply (predict_preserves_input (H := constant_model mixed_answer)
           (world_of abc_request) 1%positive abc_request).
  reflexivity.
Defined.

Lemma predict_ignores_later_queries_witness :
  let r1 := predict (H := constant_model rust_answer) 1%positive
              (World (<[1%positive := PairList rust_request]> ∅) tt []) in
  let r2 := predict (H := constant_model rust_answer) 1%positive
              (World (<[1%positive := PairList rust_request_skewed]> ∅) tt []) in
  fst r1 = fst r2 /\
  model (snd r1) = model (snd r2) /\
  trace (snd r1) = trace (snd r2) /\
  forall l, l <> 1%positive -> heap (snd r1) !! l = heap (snd r2) !! l.
Proof.
  apply (predict_ignores_later_queries (H := constant_model rust_answer)
           ∅ tt [] 1%positive rust_request rust_request_skewed).
  - discriminate.
  - reflexivity.
  - reflexivity.
Defined.

(** ** The constructor *)

Section ConstructorProperties.
Context {E M : Type} `{ModelLoader E M}.

(** Construction succeeds exactly when the import, the load and [eval()]
    all succeed; the handle is the loaded model after [eval()]. *)
Theorem init_succeeds_iff (model_path : string) (env : E) (m : M) :
  fst (fst (__init__ model_path env)) = Ret m <->
  exists env1 m0 env2,
    import_AutoModel env = (Ret tt, env1) /\
    from_pretrained env1 model_path "auto" true = (Ret m0, env2) /\
    model_eval m0 = (Ret tt, m).
Proof.
  unfold __init__, init_body.
  destruct (import_AutoModel env) as [[[]|e1] env1] eqn:Hi.
  - destruct (from_pretrained env1 model_path "auto" true)
      as [[m0|e2] env2] eqn:Hl.
    + destruct (model_eval m0) as [[[]|e3] m1] eqn:He.
      * simpl. split.
        -- intros [= <-]. by exists env1, m0, env2.
        -- intros (? & ? & ? & [= <-] & Hl' & He').
           rewrite Hl in Hl'. injection Hl' as <- <-.
           rewrite He in He'. by injection He' as <-.
      * split.
        -- by destruct (isinstance_Exception e3).
        -- intros (? & ? & ? & [= <-] & Hl' & He').
           rewrite Hl in Hl'. injection Hl' as <- <-.
           by rewrite He in He'.
    + split.
      * by destruct (isinstance_Exception e2).
      * intros (? & ? & ? & [= <-] & Hl' & _). by rewrite Hl in Hl'.
  - split.
    + by destruct (isinstance_Exception e1).
    + by intros (? & ? & ? & ? & _).
Qed.

(** Construction fails with exactly the exception of the first step that
    fails: nothing is swallowed, replaced or retried. *)
Theorem init_raises_iff (model_path : string) (env : E) (e : py_exception) :
  fst (fst (__init__ model_path env)) = Raise e <->
  (exists env1, import_AutoModel env = (Raise e, env1)) \/
  (exists env1 env2,
     import_AutoModel env = (Ret tt, env1) /\
     from_pretrained env1 model_path "auto" true = (Raise e, env2)) \/
  (exists env1 m0 env2 m1,
     import_AutoModel env = (Ret tt, env1) /\
     from_pretrained env1 model_path "auto" true = (Ret m0, env2) /\
     model_eval m0 = (Raise e, m1)).
Proof.
  unfold __init__, init_body.
  destruct (import_AutoModel env) as [[[]|e1] env1] eqn:Hi.
  - destruct (from_pretrained env1 model_path "auto" true)
      as [[m0|e2] env2] eqn:Hl.
    + destruct (model_eval m0) as [[[]|e3] m1] eqn:He.
      * simpl. split; [done|].
        intros [(? & ?)|[(? & ? & [= <-] & Hl')|(? & ? & ? & ? & [= <-] & Hl' & He')]];
          try done.
        -- by rewrite Hl in Hl'.
        -- rewrite Hl in Hl'. injection Hl' as <- <-. by rewrite He in He'.
      * split.
        -- intros Hr. right. right. exists env1, m0, env2, m1.
           split_and!; try done.
           destruct (isinstance_Exception e3); simpl in Hr; congruence.
        -- intros [(? & ?)|[(? & ? & [= <-] & Hl')|(? & ? & ? & ? & [= <-] & Hl' & He')]];
             try done.
           ++ by rewrite Hl in Hl'.
           ++ rewrite Hl in Hl'. injection Hl' as <- <-.
              rewrite He in He'. injection He' as <- <-.
              by destruct (isinstance_Exception _).
    + split.
      * intros Hr. right. left. exists env1, env2. split; [done|].
        destruct (isinstance_Exception e2); simpl in Hr; congruence.
      * intros [(? & ?)|[(? & ? & [= <-] & Hl')|(? & ? & ? & ? & [= <-] & Hl' & _)]];
          try done.
        -- rewrite Hl in Hl'. injection Hl' as <- <-.
           by destruct (isinstance_Exception _).
        -- by rewrite Hl in Hl'.
  - split.
    + intros Hr. left. exists env1.
      destruct (isinstance_Exception e1); simpl in Hr; congruence.
    + intros [(? & [= <- <-])|[(? & ? & ? & _)|(? & ? & ? & ? & ? & _)]];
        try done.
      by destruct (isinstance_Exception _).
Qed.

(** A failure is logged as an error exactly when it is an instance of
    [Exception]; a success and a [KeyboardInterrupt] or [SystemExit] leave
    no error record. *)
Theorem init_error_records (model_path : string) (env : E) :
  load_errors (snd (__init__ model_path env)) =
  match fst (fst (__init__ model_path env)) with
  | Ret _ => []
  | Raise e => if isinstance_Exception e then [e] else []
  end.
Proof.
  unfold __init__, init_body.
  destruct (import_AutoModel env) as [[[]|e1] env1].
  - destruct (from_pretrained env1 model_path "auto" true) as [[m0|e2] env2].
    + destruct (model_eval m0) as [[[]|e3] m1]; [done|].
      destruct (isinstance_Exception e3) eqn:Hx; simpl; by rewrite Hx.
    + destruct (isinstance_Exception e2) eqn:Hx; simpl; by rewrite Hx.
  - destruct (isinstance_Exception e1) eqn:Hx; simpl; by rewrite Hx.
Qed.

(** The model is loaded at most once, from the path given, with
    [dtype="auto"] and [trust_remote_code=True]; it is loaded exactly once
    when the import succeeds. *)
Theorem init_loads_once (model_path : string) (env : E) :
  load_calls (snd (__init__ model_path env)) =
  match fst (import_AutoModel env) with
  | Ret _ => [(model_path, "auto", true)]
  | Raise _ => []
  end.
Proof.
  unfold __init__, init_body.
  destruct (import_AutoModel env) as [[[]|e1] env1].
  - destruct (from_pretrained env1 model_path "auto" true) as [[m0|e2] env2].
    + destruct (model_eval m0) as [[[]|e3] m1]; [done|].
      by destruct (isinstance_Exception e3).
    + by destruct (isinstance_Exception e2).
  - by destruct (isinstance_Exception e1).
Qed.

(** The first record is always the announcement of the path, and the last
    record is the success message exactly when construction succeeds. *)
Theorem init_log_bracket (model_path : string) (env : E) :
  head (snd (__init__ model_path env)) =
    Some (IvLog INFO (MsgLoading model_path)) /\
  (last (snd (__init__ model_path env)) = Some (IvLog INFO MsgLoaded) <->
   exists m, fst (fst (__init__ model_path env)) = Ret m).
Proof.
  unfold __init__, init_body.
  destruct (import_AutoModel env) as [[[]|e1] env1].
  - destruct (from_pretrained env1 model_path "auto" true) as [[m0|e2] env2].
    + destruct (model_eval m0) as [[[]|e3] m1].
      * simpl. split; [done|]. split; [eauto|done].
      * destruct (isinstance_Exception e3); simpl;
          (split; [done|]); (split; [done|by intros [? ?]]).
    + destruct (isinstance_Exception e2); simpl;
        (split; [done|]); (split; [done|by intros [? ?]]).
  - destruct (isinstance_Exception e1); simpl;
      (split; [done|]); (split; [done|by intros [? ?]]).
Qed.

End ConstructorProperties.

(** ** More on well-formed result sets *)

(** With pairwise distinct indices, every entry is the last for its index. *)
Lemma last_reported_NoDup es i s :
  NoDup (map fst es) -> (i, s) ∈ es -> last_reported es i = Some s.
Proof.
  induction es as [|[j s'] es IH]; simpl; intros Hnd Hin.
  - by apply elem_of_nil in Hin.
  - apply NoDup_cons in Hnd as [Hj Hnd].
    apply elem_of_cons in Hin as [[= -> ->]|Hin].
    + assert (Hnone : last_reported es j = None).
      { apply last_reported_None. intros s0 Hin. apply Hj.
        apply list_elem_of_fmap. by exists (j, s0). }
      by rewrite Hnone, Z.eqb_refl.
    + by rewrite (IH Hnd Hin).
Qed.

Section MoreEntries.
Context {M : Type} `{RankingModel M}.

(** When the indices of the result set are pairwise distinct and its log
    messages can be built, every in-range entry is in its slot, in
    whatever order the model listed the entries. *)
Theorem predict_unique_indices (w : world M) sentences req results m' es :
  heap w !! sentences = Some (PairList req) ->
  req <> [] ->
  rerank (model w) (query_of req) (map snd req) false = (Ret results, m') ->
  result_set results es ->
  Forall (fun e => loggable (Z.of_nat (length req)) e = true) es ->
  NoDup (map fst es) ->
  exists l scores,
    fst (predict sentences w) = Ret (Some l) /\
    heap (snd (predict sentences w)) !! l = Some (ValList scores) /\
    forall i s, (i, s) ∈ es -> 0 <= i < Z.of_nat (length req) ->
      scores !! Z.to_nat i = Some s.
Proof.
  intros Hs Hne Hr Hes Hlog Hnd.
  destruct (predict_entries_scores w sentences req results m' es)
    as (l & scores & Hret & Hl & Hlen & Hlook & _); try done.
  exists l, scores. split_and!; try done.
  intros i s Hin Hi. rewrite Hlook by lia. rewrite Z2Nat.id by lia.
  by rewrite (last_reported_NoDup es i s).
Qed.

(** [predict] passes scores through untouched: when the log messages of
    the result set can be built, every slot of the returned vector holds
    either the default [0.0] or a score the model reported for that very
    index. *)
Theorem predict_scores_from_entries (w : world M) sentences req results m' es :
  heap w !! sentences = Some (PairList req) ->
  req <> [] ->
  rerank (model w) (query_of req) (map snd req) false = (Ret results, m') ->
  result_set results es ->
  Forall (fun e => loggable (Z.of_nat (length req)) e = true) es ->
  exists l scores,
    fst (predict sentences w) = Ret (Some l) /\
    heap (snd (predict sentences w)) !! l = Some (ValList scores) /\
    forall (j : nat) v, scores !! j = Some v ->
      v = VFloat 0%float \/ (Z.of_nat j, v) ∈ es.
Proof.
  intros Hs Hne Hr Hes Hlog.
  destruct (predict_entries_scores w sentences req results m' es)
    as (l & scores & Hret & Hl & Hlen & Hlook & _); try done.
  exists l, scores. split_and!; try done.
  intros j v Hv.
  assert (Hj : (j < length req)%nat).
  { rewrite <- Hlen. by apply lookup_lt_Some in Hv. }
  rewrite (Hlook j Hj) in Hv. injection Hv as <-.
  destruct (last_reported es (Z.of_nat j)) as [s|] eqn:Hlast; simpl.
  - right. by apply last_reported_elem_of.
  - by left.
Qed.

(** When the log messages of the result set can be built, the call
    succeeds, its last log record is the debug record of the scores, and
    that record carries exactly the vector that is returned. *)
Theorem predict_logs_scores (w : world M) sentences req results m' es :
  heap w !! sentences = Some (PairList req) ->
  req <> [] ->
  rerank (model w) (query_of req) (map snd req) false = (Ret results, m') ->
  result_set results es ->
  Forall (fun e => loggable (Z.of_nat (length req)) e = true) es ->
  exists l scores,
    fst (predict sentences w) = Ret (Some l) /\
    heap (snd (predict sentences w)) !! l = Some (ValList scores) /\
    last (trace (snd (predict sentences w))) =
      Some (EvLog DEBUG (MsgScores scores)).
Proof.
  intros Hs Hne Hr Hes Hlog. destruct req as [|[q d] rest]; [done|].
  simpl in Hr.
  assert (HN : length (d :: map snd rest) = length ((q, d) :: rest))
    by (simpl; by rewrite length_map).
  rewrite (predict_entries _ _ _ _ _ _ _ es Hs Hr Hes).
  2:{ rewrite HN. by apply loggable_index. }
  2:{ rewrite HN. apply py_format_plain_list, fold_write_entry_plain; [done|].
      apply zero_scores_plain. }
  cbn [fst snd heap trace].
  eexists _, _. split_and!; [done|apply lookup_insert_eq|].
  by rewrite !app_assoc, last_snoc.
Qed.

(** When the model call raises an [Exception], the call ends in [None],
    the last log record is the error with that exception, the model keeps
    the state the failed call left, and no score vector was allocated: the
    store gained the document batch only. *)
Theorem predict_model_error (w : world M) sentences req e m' :
  heap w !! sentences = Some (PairList req) ->
  req <> [] ->
  rerank (model w) (query_of req) (map snd req) false = (Raise e, m') ->
  isinstance_Exception e = true ->
  fst (predict sentences w) = Ret None /\
  last (trace (snd (predict sentences w))) = Some (EvLog ERROR (MsgError e)) /\
  model (snd (predict sentences w)) = m' /\
  heap (snd (predict sentences w)) =
    <[fresh (dom (heap w)) := StrList (map snd req)]> (heap w).
Proof.
  intros Hs Hne Hr He. destruct req as [|[q d] rest]; [done|].
  simpl in Hr.
  rewrite (predict_nonempty _ _ _ _ _ Hs). simpl. rewrite Hr, He. simpl.
  split_and!; try done. by rewrite last_snoc.
Qed.

End MoreEntries.

(** ** Ill-formed answers *)

Section IllFormed.
Context {M : Type} `{RankingModel M}.

Lemma for_each_app {A} (xs ys : list A) (body : A -> Py M unit) : forall w,
  for_each (xs ++ ys) body w =
  match for_each xs body w with
  | (Ret _, w') => for_each ys body w'
  | (Raise e, w') => (Raise e, w')
  end.
Proof.
  induction xs as [|x xs IH]; intros w; [done|].
  rewrite <- app_comm_cons, !for_each_cons.
  destruct (body x w) as [[[]|e] w']; [apply IH|done].
Qed.

(** An [Exception] out of the reconciliation block ends the call in [None]
    with the error as the last log record. *)
Lemma predict_reconcile_raises sentences q d rest (w w' : world M) results m' e :
  heap w !! sentences = Some (PairList ((q, d) :: rest)) ->
  let docs := d :: map snd rest in
  let ld := fresh (dom (heap w)) in
  rerank (model w) q docs false = (Ret results, m') ->
  reconcile ld results
    (World (<[ld := StrList docs]> (heap w)) m'
       (trace w ++
        [EvLog DEBUG (MsgReranking (Z.of_nat (length docs)));
         EvLog DEBUG (MsgQuery (prefix100 q));
         EvRerank q docs false])) = (Raise e, w') ->
  isinstance_Exception e = true ->
  fst (predict sentences w) = Ret None /\
  last (trace (snd (predict sentences w))) = Some (EvLog ERROR (MsgError e)) /\
  model (snd (predict sentences w)) = model w'.
Proof.
  intros Hs docs ld Hr Hrec He.
  rewrite (predict_nonempty _ _ _ _ _ Hs). fold docs ld. rewrite Hr.
  unfold try_except_Exception. rewrite Hrec, He. py_unfold.
  split_and!; try done. by rewrite last_snoc.
Qed.

(** The loop cannot get past an item on which its body raises: whatever
    the other items are, it ends in an [Exception], at that item or
    before. *)
Lemma for_each_raises_at n bad items :
  bad ∈ items ->
  (exists e, isinstance_Exception e = true /\
     forall lsc (w : world M), reconcile_step lsc n bad w = (Raise e, w)) ->
  forall xs lsc h (m : M) t,
    Z.of_nat (length xs) = n ->
    exists e w',
      for_each items (reconcile_step lsc n)
        (World (<[lsc := ValList xs]> h) m t) = (Raise e, w') /\
      isinstance_Exception e = true /\
      model w' = m.
Proof.
  intros Hin (e & He & Hbad).
  induction items as [|item items IH]; [by apply elem_of_nil in Hin|].
  intros xs lsc h m t Hn. rewrite for_each_cons.
  destruct (reconcile_step_shape (M:=M) n item xs Hn)
    as (o1 & xs1 & evs1 & Hl1 & _ & He1 & Hrun1).
  apply elem_of_cons in Hin as [<-|Hin].
  - rewrite Hbad. by eexists e, _.
  - rewrite Hrun1. destruct o1 as [[]|e1].
    + apply IH; [done|congruence].
    + eexists e1, _. split_and!; [done|by apply He1|done].
Qed.

(** Hence the reconciliation block raises. *)
Lemma reconcile_raises_at results container items bad ld docs h (m : M) t :
  py_getitem_str results "results" = Ret container ->
  py_iter container = Ret items ->
  bad ∈ items ->
  h !! ld = Some (StrList docs) ->
  (exists e, isinstance_Exception e = true /\
     forall lsc (w : world M),
       reconcile_step lsc (Z.of_nat (length docs)) bad w = (Raise e, w)) ->
  exists e w',
    reconcile ld results (World h m t) = (Raise e, w') /\
    isinstance_Exception e = true /\
    model w' = m.
Proof.
  intros Hc Hit Hin Hld Hbad.
  unfold reconcile, zeros. py_unfold. rewrite Hld, Hc, Hit. simpl.
  rewrite Nat2Z.id.
  destruct (for_each_raises_at (Z.of_nat (length docs)) bad items Hin Hbad
              (replicate (length docs) (VFloat 0%float))
              (fresh (dom h)) h m t)
    as (e & w' & Hrun & He & Hm).
  { by rewrite length_replicate. }
  rewrite Hrun. by eexists e, w'.
Qed.

(** An answer without a usable ['results'] collection (no such key, not a
    dict, or a value that cannot be iterated) ends the call in [None], with
    the error as the last log record. *)
Theorem predict_no_results_collection (w : world M) sentences req results m' e :
  heap w !! sentences = Some (PairList req) ->
  req <> [] ->
  rerank (model w) (query_of req) (map snd req) false = (Ret results, m') ->
  (py_getitem_str results "results" = Raise e \/
   exists container,
     py_getitem_str results "results" = Ret container /\
     py_iter container = Raise e) ->
  fst (predict sentences w) = Ret None /\
  last (trace (snd (predict sentences w))) = Some (EvLog ERROR (MsgError e)) /\
  model (snd (predict sentences w)) = m'.
Proof.
  intros Hs Hne Hr Hbad. destruct req as [|[q d] rest]; [done|].
  simpl in Hr.
  assert (He : isinstance_Exception e = true).
  { destruct Hbad as [Hc|(c & _ & Hit)];
      eauto using py_getitem_str_raises, py_iter_raises. }
  assert (Hrec : exists w',
    reconcile (fresh (dom (heap w))) results
      (World (<[fresh (dom (heap w)) := StrList (d :: map snd rest)]> (heap w)) m'
         (trace w ++
          [EvLog DEBUG (MsgReranking (Z.of_nat (length (d :: map snd rest))));
           EvLog DEBUG (MsgQuery (prefix100 q));
           EvRerank q (d :: map snd rest) false])) = (Raise e, w') /\
    model w' = m').
  { unfold reconcile, zeros. py_unfold. rewrite lookup_insert_eq. simpl.
    destruct Hbad as [Hc|(c & Hc & Hit)].
    - rewrite Hc. simpl. eauto.
    - rewrite Hc, Hit. simpl. eauto. }
  destruct Hrec as (w' & Hrec & Hm). rewrite <- Hm.
  by apply (predict_reconcile_raises sentences q d rest w w' results m' e).
Qed.

(** One entry without an ['index'] or a ['relevance_score'] key discards
    the whole answer: the call ends in [None], whatever the other entries
    of the collection are. *)
Theorem predict_missing_key_aborts (w : world M) sentences req results m'
    container items bad e :
  heap w !! sentences = Some (PairList req) ->
  req <> [] ->
  rerank (model w) (query_of req) (map snd req) false = (Ret results, m') ->
  py_getitem_str results "results" = Ret container ->
  py_iter container = Ret items ->
  bad ∈ items ->
  (py_getitem_str bad "index" = Raise e \/
   exists idx,
     py_getitem_str bad "index" = Ret idx /\
     py_getitem_str bad "relevance_score" = Raise e) ->
  fst (predict sentences w) = Ret None /\
  model (snd (predict sentences w)) = m'.
Proof.
  intros Hs Hne Hr Hc Hit Hin Hbad. destruct req as [|[q d] rest]; [done|].
  simpl in Hr.
  assert (He : isinstance_Exception e = true).
  { destruct Hbad as [Hi|(idx & _ & Hsc)]; eauto using py_getitem_str_raises. }
  destruct (reconcile_raises_at results container items bad
              (fresh (dom (heap w))) (d :: map snd rest)
              (<[fresh (dom (heap w)) := StrList (d :: map snd rest)]> (heap w))
              m'
              (trace w ++
               [EvLog DEBUG (MsgReranking (Z.of_nat (length (d :: map snd rest))));
                EvLog DEBUG (MsgQuery (prefix100 q));
                EvRerank q (d :: map snd rest) false]))
    as (e' & w' & Hrec & He' & Hm); [done..|apply lookup_insert_eq| |].
  { exists e. split; [done|].
    intros lsc w0. unfold reconcile_step. py_unfold.
    destruct Hbad as [Hi|(idx & Hi & Hsc)].
    - by rewrite Hi.
    - by rewrite Hi, Hsc. }
  rewrite <- Hm.
  destruct (predict_reconcile_raises sentences q d rest w w' results m' e')
    as (? & _ & ?); done.
Qed.

(** An entry whose index is not an [int], a [bool] or a [float] ([None], a
    [str], a list, a tuple or a dict), or is a [float] inside the range
    such as [1.0], discards the whole answer: the call ends in [None],
    whatever the other entries of the collection are. *)
Theorem predict_non_integer_index_aborts (w : world M) sentences req results m'
    container items bad idx score e0 :
  heap w !! sentences = Some (PairList req) ->
  req <> [] ->
  rerank (model w) (query_of req) (map snd req) false = (Ret results, m') ->
  py_getitem_str results "results" = Ret container ->
  py_iter container = Ret items ->
  bad ∈ items ->
  py_getitem_str bad "index" = Ret idx ->
  py_getitem_str bad "relevance_score" = Ret score ->
  py_index idx = Raise e0 ->
  (forall f, idx = VFloat f ->
     py_int_le 0 idx = Ret true /\
     py_lt_int idx (Z.of_nat (length req)) = Ret true) ->
  fst (predict sentences w) = Ret None /\
  model (snd (predict sentences w)) = m'.
Proof.
  intros Hs Hne Hr Hc Hit Hin Hi Hsc Hix Hfl.
  destruct req as [|[q d] rest]; [done|]. simpl in Hr.
  assert (Hstep : exists e, isinstance_Exception e = true /\
    forall lsc (w0 : world M),
      reconcile_step lsc (Z.of_nat (length (d :: map snd rest))) bad w0 =
      (Raise e, w0)).
  { destruct idx as [| | |f| | | |]; try discriminate.
    2:{ destruct (Hfl f eq_refl) as [Hlo Hhi].
        assert (Hlen : length (d :: map snd rest) = length ((q, d) :: rest))
          by (simpl; by rewrite length_map).
        rewrite Hlen.
        exists e0. split; [eauto using py_index_raises|].
        intros lsc w0. unfold reconcile_step, py_bind, lift.
        rewrite Hi, Hsc, Hlo, Hhi.
        unfold list_setitem, py_bind, lift. by rewrite Hix. }
    all: eexists; split;
      [|intros lsc w0; unfold reconcile_step; py_unfold; by rewrite Hi, Hsc];
      done. }
  destruct (reconcile_raises_at results container items bad
              (fresh (dom (heap w))) (d :: map snd rest)
              (<[fresh (dom (heap w)) := StrList (d :: map snd rest)]> (heap w))
              m'
              (trace w ++
               [EvLog DEBUG (MsgReranking (Z.of_nat (length (d :: map snd rest))));
                EvLog DEBUG (MsgQuery (prefix100 q));
                EvRerank q (d :: map snd rest) false]))
    as (e & w' & Hrec & He & Hm); [done..|apply lookup_insert_eq|exact Hstep|].
  rewrite <- Hm.
  destruct (predict_reconcile_raises sentences q d rest w w' results m' e)
    as (? & _ & ?); done.
Qed.

(** An out-of-range integer index of more than 4300 digits is not skipped:
    building its warning raises [ValueError], the call ends in [None] and
    every score of the answer is lost, whatever the other entries are. *)
Theorem predict_unprintable_index_aborts (w : world M) sentences req results m'
    es i s :
  heap w !! sentences = Some (PairList req) ->
  req <> [] ->
  rerank (model w) (query_of req) (map snd req) false = (Ret results, m') ->
  result_set results es ->
  (i, s) ∈ es ->
  in_range (Z.of_nat (length req)) (i, s) = false ->
  py_str_int_ok i = false ->
  fst (predict sentences w) = Ret None /\
  model (snd (predict sentences w)) = m'.
Proof.
  intros Hs Hne Hr (container & items & Hc & Hit & Hes) Hin Hout Hbig.
  destruct req as [|[q d] rest]; [done|]. simpl in Hr.
  apply list_elem_of_lookup in Hin as [k Hk].
  destruct (Forall2_lookup_r _ _ _ _ _ Hes Hk) as (bad & Hbadk & [Hi Hsc]).
  simpl in Hi, Hsc.
  assert (Hbad : bad ∈ items) by (apply list_elem_of_lookup; eauto).
  assert (Hlen : length (d :: map snd rest) = length ((q, d) :: rest))
    by (simpl; by rewrite length_map).
  destruct (reconcile_raises_at results container items bad
              (fresh (dom (heap w))) (d :: map snd rest)
              (<[fresh (dom (heap w)) := StrList (d :: map snd rest)]> (heap w))
              m'
              (trace w ++
               [EvLog DEBUG (MsgReranking (Z.of_nat (length (d :: map snd rest))));
                EvLog DEBUG (MsgQuery (prefix100 q));
                EvRerank q (d :: map snd rest) false]))
    as (e & w' & Hrec & He & Hm); [done..|apply lookup_insert_eq| |].
  { eexists. split; [|intros lsc w0; rewrite Hlen].
    2:{ unfold reconcile_step. py_unfold. rewrite Hi, Hsc. simpl.
        unfold in_range in Hout. simpl in Hout.
        unfold py_format. simpl. rewrite Hbig.
        destruct (0 <=? i); simpl in *; [rewrite Hout|]; reflexivity. }
    done. }
  rewrite <- Hm.
  destruct (predict_reconcile_raises sentences q d rest w w' results m' e)
    as (? & _ & ?); done.
Qed.

End IllFormed.

(** ** Calls in sequence *)

Section Sequence.
Context {M : Type} `{RankingModel M}.

(** Two calls in a row on the same request, the model giving the same
    result set both times and its log messages being buildable: each call
    returns its own new score vector, the two vectors are equal, and the
    second call leaves the first vector as it was. *)
Theorem predict_twice (w : world M) sentences req results1 results2 m1 m2 es :
  heap w !! sentences = Some (PairList req) ->
  req <> [] ->
  rerank (model w) (query_of req) (map snd req) false = (Ret results1, m1) ->
  rerank m1 (query_of req) (map snd req) false = (Ret results2, m2) ->
  result_set results1 es ->
  result_set results2 es ->
  Forall (fun e => loggable (Z.of_nat (length req)) e = true) es ->
  let r1 := predict sentences w in
  let r2 := predict sentences (snd r1) in
  exists l1 l2 scores,
    fst r1 = Ret (Some l1) /\
    fst r2 = Ret (Some l2) /\
    l1 <> l2 /\
    heap (snd r1) !! l1 = Some (ValList scores) /\
    heap (snd r2) !! l1 = Some (ValList scores) /\
    heap (snd r2) !! l2 = Some (ValList scores).
Proof.
  intros Hs Hne Hr1 Hr2 Hes1 Hes2 Hlog r1 r2.
  destruct req as [|[q d] rest]; [done|]. simpl in Hr1, Hr2.
  assert (HN : length (d :: map snd rest) = length ((q, d) :: rest))
    by (simpl; by rewrite length_map).
  assert (Hidx : Forall (fun e =>
            in_range (Z.of_nat (length (d :: map snd rest))) e = false ->
            py_str_int_ok e.1 = true) es).
  { rewrite HN. by apply loggable_index. }
  assert (Hfmt : py_format
            (VList (fold_left
                      (write_entry (Z.of_nat (length (d :: map snd rest))))
                      es (zero_scores (length (d :: map snd rest))))) = Ret tt).
  { rewrite HN. apply py_format_plain_list, fold_write_entry_plain; [done|].
    apply zero_scores_plain. }
  assert (Hrun1 := predict_entries _ _ _ _ _ _ _ es Hs Hr1 Hes1 Hidx Hfmt).
  cbv zeta in Hrun1.
  set (docs := d :: map snd rest) in *.
  set (xs := fold_left (write_entry (Z.of_nat (length docs))) es
               (zero_scores (length docs))) in *.
  set (h1 := <[fresh (dom (heap w)) := StrList docs]> (heap w)) in *.
  set (l1 := fresh (dom h1)) in *.
  set (h2 := <[l1 := ValList xs]> h1) in *.
  assert (Hs2 : h2 !! sentences = Some (PairList ((q, d) :: rest))).
  { assert (Hs1 : h1 !! sentences = Some (PairList ((q, d) :: rest))).
    { unfold h1. rewrite lookup_insert_ne; [done|].
      by apply (fresh_not_allocated _ _ (PairList ((q, d) :: rest))). }
    unfold h2. rewrite lookup_insert_ne; [done|].
    by apply (fresh_not_allocated _ _ (PairList ((q, d) :: rest))). }
  assert (Hl1 : h2 !! l1 = Some (ValList xs)) by apply lookup_insert_eq.
  unfold r2, r1. rewrite Hrun1. cbn [fst snd].
  match goal with
  | |- context [predict sentences ?w1] =>
      assert (Hrun2 := predict_entries sentences q d rest w1 results2 m2 es
                         Hs2 Hr2 Hes2 Hidx Hfmt)
  end.
  cbv zeta in Hrun2. cbn [heap model trace] in Hrun2. fold docs xs in Hrun2.
  rewrite Hrun2. cbn [fst snd heap].
  set (h3 := <[fresh (dom h2) := StrList docs]> h2) in *.
  exists l1, (fresh (dom h3)), xs.
  assert (Hl3 : h3 !! l1 = Some (ValList xs)).
  { unfold h3. rewrite lookup_insert_ne; [done|].
    by apply (fresh_not_allocated _ _ (ValList xs)). }
  assert (Hne12 : l1 <> fresh (dom h3)).
  { intros Heq. symmetry in Heq. revert Heq.
    by apply (fresh_not_allocated _ _ (ValList xs)). }
  split_and!; try done.
  - by rewrite lookup_insert_ne.
  - apply lookup_insert_eq.
Qed.

End Sequence.

(** ** The query in the log *)

(** [s[:n]] is a prefix of [s] with [min n (len s)] code points, and all of
    [s] when [s] has at most [n] code points. *)
Lemma take_code_points_prefix (s : string) : forall n : nat,
  code_points (take_code_points n s) = Nat.min n (code_points s) /\
  (exists rest, s = String.append (take_code_points n s) rest) /\
  ((code_points s <= n)%nat -> take_code_points n s = s).
Proof.
  induction s as [|c s IH]; intros n.
  - simpl. split_and!; [lia| |done]. by exists EmptyString.
  - simpl. destruct (utf8_continuation c) eqn:Hc.
    + destruct (IH n) as (Hlen & [rest Hrest] & Hall). simpl. rewrite Hc.
      split_and!; [done| |].
      * exists rest.
        change (String c s = String c (take_code_points n s +:+ rest)).
        by f_equal.
      * intros Hl. f_equal. by apply Hall.
    + destruct n as [|n].
      * simpl. split_and!; [done| |lia]. by exists (String c s).
      * destruct (IH n) as (Hlen & [rest Hrest] & Hall). simpl. rewrite Hc.
        split_and!.
        -- by rewrite Hlen.
        -- exists rest.
           change (String c s = String c (take_code_points n s +:+ rest)).
           by f_equal.
        -- intros Hl. f_equal. apply Hall. lia.
Qed.

Section QueryLog.
Context {M : Type} `{RankingModel M}.

(** On a non-empty request the call logs the start of the first pair's
    query and never more than 100 code points of it; a query of at most
    100 code points is logged whole. *)
Theorem predict_logs_query_prefix (w : world M) sentences req :
  heap w !! sentences = Some (PairList req) ->
  req <> [] ->
  exists p,
    EvLog DEBUG (MsgQuery p) ∈ trace (snd (predict sentences w)) /\
    (code_points p <= 100)%nat /\
    (exists rest, query_of req = String.append p rest) /\
    ((code_points (query_of req) <= 100)%nat -> p = query_of req).
Proof.
  intros Hs Hne. destruct req as [|[q d] rest]; [done|].
  destruct (predict_shape sentences q d rest w Hs)
    as (o & h' & evs & Hrun & _).
  rewrite Hrun. cbn [snd trace query_of].
  destruct (take_code_points_prefix q 100) as (Hlen & [tl Htl] & Hall).
  exists (prefix100 q). unfold prefix100. split_and!.
  - rewrite !elem_of_app. left. right. apply elem_of_cons. right.
    apply elem_of_cons. by left.
  - rewrite Hlen. lia.
  - by exists tl.
  - done.
Qed.

End QueryLog.

(** ** Instances of the further theorems *)

Lemma predict_unique_indices_witness :
  exists l scores,
    fst (predict (H := constant_model rust_answer) 1%positive
           (world_of rust_request)) = Ret (Some l) /\
    heap (snd (predict (H := constant_model rust_answer) 1%positive
                 (world_of rust_request))) !! l = Some (ValList scores) /\
    forall i s, (i, s) ∈ rust_entries ->
      0 <= i < Z.of_nat (length rust_request) ->
      scores !! Z.to_nat i = Some s.
Proof.
  apply (predict_unique_indices (H := constant_model rust_answer)
           (world_of rust_request) 1%positive rust_request rust_answer tt
           rust_entries).
  - reflexivity.
  - discriminate.
  - reflexivity.
  - apply result_set_answer. repeat constructor.
  - repeat (constructor; [vm_compute; reflexivity|]). constructor.
  - simpl. apply NoDup_cons. split.
    + intros Hin. apply list_elem_of_singleton in Hin. discriminate.
    + apply NoDup_singleton.
Defined.

Lemma predict_scores_from_entries_witness :
  exists l scores,
    fst (predict (H := constant_model mixed_answer) 1%positive
           (world_of abc_request)) = Ret (Some l) /\
    heap (snd (predict (H := constant_model mixed_answer) 1%positive
                 (world_of abc_request))) !! l = Some (ValList scores) /\
    forall (j : nat) v, scores !! j = Some v ->
      v = VFloat 0%float \/ (Z.of_nat j, v) ∈ mixed_entries.
Proof.
  apply (predict_scores_from_entries (H := constant_model mixed_answer)
           (world_of abc_request) 1%positive abc_request mixed_answer tt
           mixed_entries).
  - reflexivity.
  - discriminate.
  - reflexivity.
  - apply result_set_answer. repeat constructor.
  - repeat (constructor; [vm_compute; reflexivity|]). constructor.
Defined.

Lemma predict_logs_scores_witness :
  exists l scores,
    fst (predict (H := constant_model mixed_answer) 1%positive
           (world_of abc_request)) = Ret (Some l) /\
    heap (snd (predict (H := constant_model mixed_answer) 1%positive
                 (world_of abc_request))) !! l = Some (ValList scores) /\
    last (trace (snd (predict (H := constant_model mixed_answer) 1%positive
                        (world_of abc_request)))) =
      Some (EvLog DEBUG (MsgScores scores)).
Proof.
  apply (predict_logs_scores (H := constant_model mixed_answer)
           (world_of abc_request) 1%positive abc_request mixed_answer tt
           mixed_entries).
  - reflexivity.
  - discriminate.
  - reflexivity.
  - apply result_set_answer. repeat constructor.
  - repeat (constructor; [vm_compute; reflexivity|]). constructor.
Defined.

Lemma predict_model_error_witness :
  let r := predict (H := failing_model (RuntimeError "CUDA out of memory"))
             1%positive (world_of abc_request) in
  fst r = Ret None /\
  last (trace (snd r)) =
    Some (EvLog ERROR (MsgError (RuntimeError "CUDA out of memory"))) /\
  model (snd r) = tt /\
  heap (snd r) =
    <[fresh (dom (heap (world_of abc_request))) := StrList (map snd abc_request)]>
      (heap (world_of abc_request)).
Proof.
  apply (predict_model_error
           (H := failing_model (RuntimeError "CUDA out of memory"))
           (world_of abc_request) 1%positive abc_request
           (RuntimeError "CUDA out of memory") tt).
  - reflexivity.
  - discriminate.
  - reflexivity.
  - reflexivity.
Defined.

(** The model answers with a bare list of entries instead of a dict. *)
Lemma predict_no_results_collection_witness :
  let r := predict (H := constant_model (VList [entry 0 0.5%float]))
             1%positive (world_of abc_request) in
  fst r = Ret None /\
  last (trace (snd r)) =
    Some (EvLog ERROR
            (MsgError (TypeError "list indices must be integers or slices, not str"))) /\
  model (snd r) = tt.
Proof.
  apply (predict_no_results_collection
           (H := constant_model (VList [entry 0 0.5%float]))
           (world_of abc_request) 1%positive abc_request
           (VList [entry 0 0.5%float]) tt).
  - reflexivity.
  - discriminate.
  - reflexivity.
  - left. reflexivity.
Defined.

Lemma predict_missing_key_aborts_witness :
  let r := predict (H := constant_model scoreless_answer) 1%positive
             (world_of abc_request) in
  fst r = Ret None /\ model (snd r) = tt.
Proof.
  apply (predict_missing_key_aborts (H := constant_model scoreless_answer)
           (world_of abc_request) 1%positive abc_request scoreless_answer tt
           (VList [entry 0 0.5%float; scoreless_entry; entry 2 0.25%float])
           [entry 0 0.5%float; scoreless_entry; entry 2 0.25%float]
           scoreless_entry (KeyError "relevance_score")).
  - reflexivity.
  - discriminate.
  - reflexivity.
  - reflexivity.
  - reflexivity.
  - right. left.
  - right. exists (VInt 1). split; reflexivity.
Defined.

Lemma predict_non_integer_index_aborts_witness :
  let r := predict (H := constant_model float_index_answer) 1%positive
             (world_of abc_request) in
  fst r = Ret None /\ model (snd r) = tt.
Proof.
  apply (predict_non_integer_index_aborts
           (H := constant_model float_index_answer)
           (world_of abc_request) 1%positive abc_request float_index_answer tt
           (VList [float_index_entry]) [float_index_entry] float_index_entry
           (VFloat 1%float) (VFloat 0.5%float)
           (TypeError "list indices must be integers or slices")).
  - reflexivity.
  - discriminate.
  - reflexivity.
  - reflexivity.
  - reflexivity.
  - left.
  - reflexivity.
  - reflexivity.
  - reflexivity.
  - intros f _. split; vm_compute; reflexivity.
Defined.

Lemma predict_unprintable_index_aborts_witness :
  let r := predict (H := constant_model one_and_huge_answer) 1%positive
             (world_of abc_request) in
  fst r = Ret None /\ model (snd r) = tt.
Proof.
  apply (predict_unprintable_index_aborts
           (H := constant_model one_and_huge_answer)
           (world_of abc_request) 1%positive abc_request one_and_huge_answer tt
           one_and_huge_entries huge_index (VFloat 0.25%float)).
  - reflexivity.
  - discriminate.
  - reflexivity.
  - apply result_set_answer. repeat constructor.
  - right. left.
  - vm_compute. reflexivity.
  - vm_compute. reflexivity.
Defined.

Lemma predict_twice_witness :
  let r1 := predict (H := constant_model mixed_answer) 1%positive
              (world_of abc_request) in
  let r2 := predict (H := constant_model mixed_answer) 1%positive (snd r1) in
  exists l1 l2 scores,
    fst r1 = Ret (Some l1) /\
    fst r2 = Ret (Some l2) /\
    l1 <> l2 /\
    heap (snd r1) !! l1 = Some (ValList scores) /\
    heap (snd r2) !! l1 = Some (ValList scores) /\
    heap (snd r2) !! l2 = Some (ValList scores).
Proof.
  apply (predict_twice (H := constant_model mixed_answer)
           (world_of abc_request) 1%positive abc_request
           mixed_answer mixed_answer tt tt mixed_entries).
  - reflexivity.
  - discriminate.
  - reflexivity.
  - reflexivity.
  - apply result_set_answer. repeat constructor.
  - apply result_set_answer. repeat constructor.
  - repeat (constructor; [vm_compute; reflexivity|]). constructor.
Defined.

Lemma predict_logs_query_prefix_witness :
  exists p,
    EvLog DEBUG (MsgQuery p) ∈
      trace (snd (predict (H := constant_model rust_answer) 1%positive
                    (world_of rust_request))) /\
    (code_points p <= 100)%nat /\
    (exists rest, query_of rust_request = String.append p rest) /\
    ((code_points (query_of rust_request) <= 100)%nat ->
     p = query_of rust_request).
Proof.
  apply (predict_logs_query_prefix (H := constant_model rust_answer)
           (world_of rust_request) 1%positive rust_request).
  - reflexivity.
  - discriminate.
Defined.

(** ** What a call depends on and what it leaves behind *)

Section Footprint.
Context {M : Type} `{RankingModel M}.

(** A call creates at most two objects, the document batch and the score
    vector, at the next two unused addresses; on a non-empty request the
    batch holds the documents of the pairs in request order. *)
Theorem predict_allocates_at_most_two (w : world M) sentences req :
  heap w !! sentences = Some (PairList req) ->
  let ld := fresh (dom (heap w)) in
  let lsc := fresh (dom (<[ld := StrList (map snd req)]> (heap w))) in
  (forall l, is_Some (heap (snd (predict sentences w)) !! l) ->
     is_Some (heap w !! l) \/ l = ld \/ l = lsc) /\
  (req <> [] ->
     heap (snd (predict sentences w)) !! ld = Some (StrList (map snd req))).
Proof.
  intros Hs ld lsc. destruct req as [|[q d] rest].
  - rewrite (predict_on_empty w sentences Hs). simpl. split; [eauto|done].
  - destruct (predict_shape sentences q d rest w Hs)
      as (o & h' & evs & Hrun & _ & Hcases).
    rewrite Hrun. cbn [snd heap]. cbn [map snd] in lsc.
    fold ld in Hcases. fold lsc in Hcases.
    set (h1 := <[ld := StrList (d :: map snd rest)]> (heap w)) in *.
    assert (Hh1 : forall l, is_Some (h1 !! l) -> is_Some (heap w !! l) \/ l = ld).
    { intros l. unfold h1. destruct (decide (ld = l)) as [->|Hn]; [eauto|].
      rewrite lookup_insert_ne by done. eauto. }
    assert (Hh2 : forall xs l, is_Some (<[lsc := ValList xs]> h1 !! l) ->
              is_Some (heap w !! l) \/ l = ld \/ l = lsc).
    { intros xs l. destruct (decide (lsc = l)) as [->|Hn]; [eauto|].
      rewrite lookup_insert_ne by done. intros Hl.
      destruct (Hh1 l Hl); eauto. }
    assert (Hld1 : h1 !! ld = Some (StrList (d :: map snd rest)))
      by apply lookup_insert_eq.
    assert (Hld2 : forall xs,
              <[lsc := ValList xs]> h1 !! ld = Some (StrList (d :: map snd rest))).
    { intros xs. rewrite lookup_insert_ne; [done|].
      by apply (fresh_not_allocated _ _ (StrList (d :: map snd rest))). }
    destruct Hcases
      as [[_ [->|[xs ->]]]|[[_ (xs & -> & _)]|(e & _ & -> & _)]];
      split; eauto.
    all: intros l Hl; destruct (Hh1 l Hl); eauto.
Qed.

(** The adapter keeps no state of its own: two calls on equal requests with
    the model in the same state end the same way (both [None], both the
    same exception, or two score vectors with the same contents) and leave
    the model in the same state, whatever else the store and the log
    hold. *)
Theorem predict_depends_on_request_and_model
    (w1 w2 : world M) sentences1 sentences2 req :
  heap w1 !! sentences1 = Some (PairList req) ->
  heap w2 !! sentences2 = Some (PairList req) ->
  model w1 = model w2 ->
  let r1 := predict sentences1 w1 in
  let r2 := predict sentences2 w2 in
  model (snd r1) = model (snd r2) /\
  match fst r1, fst r2 with
  | Ret (Some l1), Ret (Some l2) =>
      exists scores,
        heap (snd r1) !! l1 = Some (ValList scores) /\
        heap (snd r2) !! l2 = Some (ValList scores)
  | Ret None, Ret None => True
  | Raise e1, Raise e2 => e1 = e2
  | _, _ => False
  end.
Proof.
  intros Hs1 Hs2 Hm r1 r2. unfold r1, r2.
  destruct req as [|[q d] rest].
  - rewrite (predict_on_empty w1 sentences1 Hs1).
    rewrite (predict_on_empty w2 sentences2 Hs2). simpl. by split.
  - rewrite (predict_nonempty _ _ _ _ _ Hs1), (predict_nonempty _ _ _ _ _ Hs2).
    rewrite <- Hm.
    set (docs := d :: map snd rest).
    destruct (rerank (model w1) q docs false) as [[results|e] m'].
    + destruct (reconcile_shape (M:=M) (length docs) results)
        as (o & xs & evs & _ & _ & _ & Hrun).
      unfold try_except_Exception.
      rewrite (Hrun (fresh (dom (heap w1))) docs)
        by (done || apply lookup_insert_eq).
      rewrite (Hrun (fresh (dom (heap w2))) docs)
        by (done || apply lookup_insert_eq).
      destruct o as [[]|e]; simpl.
      * split; [done|]. exists xs. by rewrite !lookup_insert_eq.
      * destruct (isinstance_Exception e); simpl; by split.
    + destruct (isinstance_Exception e); simpl; by split.
Qed.

End Footprint.

Lemma predict_allocates_at_most_two_witness :
  let w := world_of abc_request in
  let ld := fresh (dom (heap w)) in
  let lsc := fresh (dom (<[ld := StrList (map snd abc_request)]> (heap w))) in
  (forall l,
     is_Some (heap (snd (predict (H := constant_model mixed_answer)
                           1%positive w)) !! l) ->
     is_Some (heap w !! l) \/ l = ld \/ l = lsc) /\
  (abc_request <> [] ->
     heap (snd (predict (H := constant_model mixed_answer) 1%positive w)) !! ld =
     Some (StrList (map snd abc_request))).
Proof.
  apply (predict_allocates_at_most_two (H := constant_model mixed_answer)
           (world_of abc_request) 1%positive abc_request).
  reflexivity.
Defined.

(** The same request at two addresses of two different stores. *)
Lemma predict_depends_on_request_and_model_witness :
  let w1 := world_of abc_request in
  let w2 := World (<[5%positive := PairList abc_request]>
                     (<[1%positive := StrList ["x"]]> ∅)) tt
                  [EvLog WARNING MsgEmptySentences] in
  let r1 := predict (H := constant_model mixed_answer) 1%positive w1 in
  let r2 := predict (H := constant_model mixed_answer) 5%positive w2 in
  model (snd r1) = model (snd r2) /\
  match fst r1, fst r2 with
  | Ret (Some l1), Ret (Some l2) =>
      exists scores,
        heap (snd r1) !! l1 = Some (ValList scores) /\
        heap (snd r2) !! l2 = Some (ValList scores)
  | Ret None, Ret None => True
  | Raise e1, Raise e2 => e1 = e2
  | _, _ => False
  end.
Proof.
  apply (predict_depends_on_request_and_model
           (H := constant_model mixed_answer)
           (world_of abc_request)
           (World (<[5%positive := PairList abc_request]>
                     (<[1%positive := StrList ["x"]]> ∅)) tt
                  [EvLog WARNING MsgEmptySentences])
           1%positive 5%positive abc_request).
  - reflexivity.
  - reflexivity.
  - reflexivity.
Defined.

(** ** Runs of the constructor *)

(** A loader that works: the handle is the loaded model after [eval()]. *)
Example init_good :
  __init__ (H := good_loader) "jinaai/jina-reranker-v3" tt =
  (Ret 1%nat, tt,
   [IvLog INFO (MsgLoading "jinaai/jina-reranker-v3");
    IvImport;
    IvFromPretrained "jinaai/jina-reranker-v3" "auto" true;
    IvEval;
    IvLog INFO MsgLoaded]).
Proof. reflexivity. Qed.

(** A missing model: the error is logged and raised again. *)
Example init_missing :
  __init__ (H := missing_loader (ValueError "not a valid model identifier"))
    "no/such-model" tt =
  (Raise (ValueError "not a valid model identifier"), tt,
   [IvLog INFO (MsgLoading "no/such-model");
    IvImport;
    IvFromPretrained "no/such-model" "auto" true;
    IvLog ERROR (MsgLoadFailed (ValueError "not a valid model identifier"))]).
Proof. reflexivity. Qed.

(** An interrupted load is raised again without an error record. *)
Example init_interrupted :
  __init__ (H := missing_loader KeyboardInterrupt) "jinaai/jina-reranker-v3" tt =
  (Raise KeyboardInterrupt, tt,
   [IvLog INFO (MsgLoading "jinaai/jina-reranker-v3");
    IvImport;
    IvFromPretrained "jinaai/jina-reranker-v3" "auto" true]).
Proof. reflexivity. Qed.
